(** * pdf-to-booklet: saddle-stitch imposition, verified against its script

    A shallow embedding of [main.js] (the full script, with [--padding],
    [--double] and [--debug]) and of the minimal script variant (only
    [--a3]), from the command line down to the placements, followed by the
    properties of the imposition engine, of a run, of the batch driver and
    of the top level.

    Conventions of the embedding.
    - Page numbers and page counts are JavaScript numbers that only ever
      hold small integers; they are embedded in [Z].  The one real-valued
      step on them, [Math.ceil(pageCount / 4)], is embedded through [Q]
      and [Qceiling].
    - Lengths in points (page sizes, padding, scale, coordinates) are
      embedded over an interface [JsNumber] that lists the arithmetic the
      script performs on them; the engine is written once over that
      interface.  There are two instances: exact rationals, and binary64,
      which is what JavaScript computes with.  Properties that only
      depend on the shape of the computation are proved for every
      instance; properties that depend on arithmetic laws are proved for
      the exact instance over [Q], that is, up to rounding.
    - [pdf-lib] and [node:fs] are collaborators: a PDF document is the
      list of its pages, the file system is a finite map from paths to
      files, and [PageSizes] is a record of two-element arrays that lives
      in the store because [Array.prototype.reverse] reverses in place. *)

From Stdlib Require Import ZArith QArith Qround Qminmax List Bool Lia Lqa.
From Stdlib Require Import String Ascii.
From Stdlib Require Import Floats.PrimFloat.
From Equations Require Import Equations.
From stdpp Require Import gmap strings.
Import ListNotations.

Local Open Scope Z_scope.

(** ** Numbers *)

(** The operations of JavaScript numbers that the scripts use on lengths. *)
Class JsNumber (num : Type) := {
  nzero : num;                       (* the literal 0 *)
  ntwo : num;                        (* the literal 2 *)
  nadd : num -> num -> num;          (* a + b *)
  nsub : num -> num -> num;          (* a - b *)
  nmul : num -> num -> num;          (* a * b *)
  ndiv : num -> num -> num;          (* a / b *)
  nmin : num -> num -> num;          (* Math.min(a, b) *)
  ntruthy : num -> bool              (* ToBoolean(a), as used by a || b *)
}.

(** Exact rational arithmetic.  A rational is falsy exactly when it is 0.
    [Qdiv] by 0 is 0, where JavaScript gives an infinity or NaN: the
    instance is only evaluated at divisors other than 0. *)
#[export] Instance QNumber : JsNumber Q := {
  nzero := 0%Q;
  ntwo := 2%Q;
  nadd := Qplus;
  nsub := Qminus;
  nmul := Qmult;
  ndiv := Qdiv;
  nmin := Qmin;
  ntruthy := fun a => negb (Qeq_bool a 0)
}.

(** IEEE 754 binary64, the numbers of JavaScript.  [Math.min] returns NaN
    if an argument is NaN and takes -0 to be below +0; a number is falsy
    when it is NaN or a zero. *)
Definition float_min (a b : float) : float :=
  if PrimFloat.is_nan a then a
  else if PrimFloat.is_nan b then b
  else if PrimFloat.ltb a b then a
  else if PrimFloat.ltb b a then b
  else if PrimFloat.get_sign a then a else b.

#[export] Instance Binary64 : JsNumber float := {
  nzero := 0%float;
  ntwo := 2%float;
  nadd := PrimFloat.add;
  nsub := PrimFloat.sub;
  nmul := PrimFloat.mul;
  ndiv := PrimFloat.div;
  nmin := float_min;
  ntruthy := fun a => negb (orb (PrimFloat.is_nan a) (PrimFloat.is_zero a))
}.

(** ** Page-count normalisation *)

(** [Math.ceil(pageCount / 4) * 4]: the division is a real division. *)
Definition finalPageCount (pageCount : Z) : Z :=
  Qceiling (inject_Z pageCount / 4) * 4.

(** Infix notations for the arithmetic on lengths. *)
Declare Scope js_scope.
Delimit Scope js_scope with js.
Notation "a + b" := (nadd a b) : js_scope.
Notation "a - b" := (nsub a b) : js_scope.
Notation "a * b" := (nmul a b) : js_scope.
Notation "a / b" := (ndiv a b) : js_scope.

(** ** The collaborators: PDF documents, the file system, the console *)

Section Collaborators.
Context {num : Type} {NUM : JsNumber num}.

(** The object that [addPageToOutput] returns and [drawPage] consumes.
    [page] is the page embedded by [embedPdf(inputPdf, [pageNumber])];
    it is identified by that page number. *)
Record Placement := mkPlacement {
  x : num; y : num; width : num; height : num; page : Z
}.

(** A page: its size [(width, height)] and what was drawn on it, in
    drawing order. *)
Record PDFPage := mkPage {
  getSize : num * num;
  drawn : list Placement
}.

(** A document is the list of its pages. *)
Definition PDFDocument := list PDFPage.

Definition getPageCount (doc : PDFDocument) : Z := Z.of_nat (length doc).

(** [doc.addPage([w, h])] appends an empty page and returns a handle on
    it; the handle is the position of the page in the document. *)
Definition addPage (size : num * num) (doc : PDFDocument)
  : nat * PDFDocument :=
  (length doc, doc ++ [mkPage size []]).

(** [handle.drawPage(p.page, p)] draws on the page behind the handle.
    pdf-lib is taken to accept the placement.  It refuses one whose
    numbers are not numbers (NaN, as a first page of width 0 gives in
    binary64): the code then throws where the model goes on. *)
Definition drawPage (handle : nat) (p : Placement) (doc : PDFDocument)
  : PDFDocument :=
  alter (fun pg => mkPage (getSize pg) (drawn pg ++ [p])) handle doc.

(** [PageSizes] of pdf-lib: each entry is a two-element array. *)
Record PageSizesT := mkPageSizes { A4 : num * num; A3 : num * num }.

(** What a path of the file system holds: a well-formed PDF, or
    anything that [PDFDocument.load] rejects. *)
Inductive File :=
| PdfFile (doc : PDFDocument)
| OtherFile.

Inductive Error :=
| ENOENT (path : string)         (* readFileSync: no such file *)
| InvalidPDF (path : string)     (* PDFDocument.load rejects the bytes *)
| TypeError (reading : string).  (* a property read from undefined *)

Inductive ConsoleLine :=
| info (message : string)
| error (message : string) (err : Error).

(** The store that outlives a call of [pdfToBooklet]. *)
Record World := mkWorld {
  PageSizes : PageSizesT;
  fs : gmap string File;
  console : list ConsoleLine
}.

(** A computation returns or throws, and leaves a store behind. *)
Inductive Outcome (A : Type) :=
| Returned (a : A)
| Thrown (e : Error).
#[global] Arguments Returned {A} a.
#[global] Arguments Thrown {A} e.

Definition Script (A : Type) : Type := World -> Outcome A * World.

#[export] Instance Script_ret : MRet Script :=
  fun A a w => (Returned a, w).

#[export] Instance Script_bind : MBind Script :=
  fun A B k m w =>
    match m w with
    | (Returned a, w') => k a w'
    | (Thrown e, w') => (Thrown e, w')
    end.

Definition throw {A : Type} (e : Error) : Script A :=
  fun w => (Thrown e, w).

(** [try { body } catch (error) { handler(error) }] *)
Definition try_catch {A : Type} (body : Script A) (handler : Error -> Script A)
  : Script A :=
  fun w =>
    match body w with
    | (Returned a, w') => (Returned a, w')
    | (Thrown e, w') => handler e w'
    end.

Definition console_info (message : string) : Script unit :=
  fun w => (Returned tt,
            mkWorld (PageSizes w) (fs w) (console w ++ [info message])).

Definition console_error (message : string) (err : Error) : Script unit :=
  fun w => (Returned tt,
            mkWorld (PageSizes w) (fs w) (console w ++ [error message err])).

(** [PDFDocument.load(readFileSync(path))]: reading throws when nothing
    is at [path], loading throws when what is there is not a PDF. *)
Definition loadFile (path : string) : Script PDFDocument :=
  fun w =>
    match fs w !! path with
    | None => (Thrown (ENOENT path), w)
    | Some (PdfFile doc) => (Returned doc, w)
    | Some OtherFile => (Thrown (InvalidPDF path), w)
    end.

(** [doc.getPage(index)], which the scripts call at index 0 only:
    [undefined], here [None], on a document without pages. *)
Definition getPage (doc : PDFDocument) (index : Z) : option PDFPage :=
  if index <? 0 then None else doc !! Z.to_nat index.

(** [firstPage.getSize()]: reading [getSize] from [undefined] throws. *)
Definition getSize_of (firstPage : option PDFPage) : Script (num * num) :=
  match firstPage with
  | Some pg => mret (getSize pg)
  | None => throw (TypeError "getSize")
  end.

(** [writeFileSync(path, await doc.save())]; saving and writing are taken
    to succeed.  Where the code throws here (a page that pdf-lib cannot
    save, a path that cannot be written), after the preset was reversed,
    the model returns: what is proved of a run is proved for a run that
    returns, or for a run that fails before this point. *)
Definition saveFile (path : string) (doc : PDFDocument) : Script unit :=
  fun w => (Returned tt,
            mkWorld (PageSizes w) (<[path := PdfFile doc]> (fs w)) (console w)).

(** [PageSizes.A4.reverse()] and [PageSizes.A3.reverse()]: the array is
    reversed in place, and the same array is returned. *)
Definition reverse (a : num * num) : num * num := (snd a, fst a).

Definition PageSizes_A4_reverse : Script (num * num) :=
  fun w =>
    let a := reverse (A4 (PageSizes w)) in
    (Returned a, mkWorld (mkPageSizes a (A3 (PageSizes w))) (fs w) (console w)).

Definition PageSizes_A3_reverse : Script (num * num) :=
  fun w =>
    let a := reverse (A3 (PageSizes w)) in
    (Returned a, mkWorld (mkPageSizes (A4 (PageSizes w)) a) (fs w) (console w)).

(** The sheet that a run selects, in the orientation it gets from
    reversing the array, and the store of sizes that the run leaves. *)
Definition sheetOf (useA3 : bool) (w : World) : num * num :=
  reverse (if useA3 then A3 (PageSizes w) else A4 (PageSizes w)).

Definition reversedSizes (useA3 : bool) (w : World) : PageSizesT :=
  if useA3
  then mkPageSizes (A4 (PageSizes w)) (reverse (A3 (PageSizes w)))
  else mkPageSizes (reverse (A4 (PageSizes w))) (A3 (PageSizes w)).
End Collaborators.

Arguments Placement num : clear implicits.
Arguments PDFPage num : clear implicits.
Arguments PDFDocument num : clear implicits.
Arguments PageSizesT num : clear implicits.
Arguments File num : clear implicits.
Arguments World num : clear implicits.
Arguments Script num A : clear implicits.

(** ** Path and string helpers of the batch driver *)

(** [c.toLowerCase()] on one character; only A-Z change. *)
Definition toLowerCase_ascii (c : ascii) : ascii :=
  let n := nat_of_ascii c in
  if (andb (Nat.leb 65 n) (Nat.leb n 90)) then ascii_of_nat (n + 32) else c.

Fixpoint toLowerCase (s : string) : string :=
  match s with
  | EmptyString => EmptyString
  | String c rest => String (toLowerCase_ascii c) (toLowerCase rest)
  end.

(** [s.endsWith(suffix)] *)
Definition endsWith (s suffix : string) : bool :=
  let n := String.length s in
  let k := String.length suffix in
  if Nat.leb k n
  then String.eqb (String.substring (n - k) k s) suffix
  else false.

(** Position of the last ["."] of [s], if any. *)
Fixpoint lastDot (s : string) : option nat :=
  match s with
  | EmptyString => None
  | String c rest =>
      match lastDot rest with
      | Some i => Some (S i)
      | None => if Ascii.eqb c "."%char then Some O else None
      end
  end.

(** [nodePath.parse(file).name] for a directory entry (no separator in
    it): the entry without its extension.  An entry has no extension when
    it has no dot, when its only dot is its first character, or when it
    is [".."]. *)
Definition parse_name (file : string) : string :=
  match lastDot file with
  | None => file
  | Some O => file
  | Some i => if String.eqb file ".." then file else String.substring 0 i file
  end.

(** ** The full script, [main.js] *)

Module Main.

(** The [options] object built from the command line.  The lines that
    [--debug] prints are not part of the model: they change neither the
    document nor the control flow. *)
Module Options.
Record t {num : Type} := mk {
  useA3 : bool;
  debug : bool;
  double : bool;
  padding : num
}.
Arguments t num : clear implicits.
End Options.
Abbreviation Options := Options.t.

Section Script.
Context {num : Type} {NUM : JsNumber num}.
(** [nodePath.join] *)
Variable join : string -> string -> string.

(** *** The imposition engine: the body of [pdfToBooklet] once the
    page count and the sizes are known *)
Section Engine.
Variable options : Options num.
Variable pageCount : Z.
Variables origWidth origHeight : num.
Variables outputWidth outputHeight : num.

(** [options.padding || 0] *)
Definition padding : num :=
  if ntruthy (Options.padding options)
  then Options.padding options else nzero.

Definition scaleX : num :=
  ((outputWidth / ntwo - padding * ntwo) / origWidth)%js.

Definition scaleY : num :=
  if Options.double options
  then ((outputHeight / ntwo - padding * ntwo) / origHeight)%js
  else ((outputHeight - padding * ntwo) / origHeight)%js.

Definition scale : num := nmin scaleX scaleY.

(** The helper [addPageToOutput]; [undefined] is [None]. *)
Definition addPageToOutput (pageNumber : Z) (x0 y0 : num)
  : option (Placement num) :=
  if pageNumber <? pageCount
  then Some {| x := (x0 + padding)%js;
               y := (y0 + padding)%js;
               width := (origWidth * scale)%js;
               height := (origHeight * scale)%js;
               page := pageNumber |}
  else None.

(** [{ ...bottom, y: outputHeight / 2 + padding }] *)
Definition top (bottom : Placement num) : Placement num :=
  {| x := x bottom;
     y := (outputHeight / ntwo + padding)%js;
     width := width bottom;
     height := height bottom;
     page := page bottom |}.

(** [if (slot) { drawPage(slot); if (options.double) drawPage(top) }] *)
Definition drawSlot (handle : nat) (slot : option (Placement num))
           (outputPdf : PDFDocument num) : PDFDocument num :=
  match slot with
  | Some bottom =>
      let outputPdf := drawPage handle bottom outputPdf in
      if Options.double options
      then drawPage handle (top bottom) outputPdf
      else outputPdf
  | None => outputPdf
  end.

(** One round of the [for] loop. *)
Definition body (index : Z) (outputPdf : PDFDocument num)
  : PDFDocument num :=
  let '(outputPage, outputPdf) :=
    addPage (outputWidth, outputHeight) outputPdf in
  (* Back side *)
  let backLeftBottom :=
    addPageToOutput (finalPageCount pageCount - 1 - index) nzero nzero in
  let backRightBottom :=
    addPageToOutput index (outputWidth / ntwo)%js nzero in
  let outputPdf := drawSlot outputPage backLeftBottom outputPdf in
  let outputPdf := drawSlot outputPage backRightBottom outputPdf in
  (* Front side *)
  let '(frontPage, outputPdf) :=
    addPage (outputWidth, outputHeight) outputPdf in
  let frontLeftBottom := addPageToOutput (index + 1) nzero nzero in
  let frontRightBottom :=
    addPageToOutput (finalPageCount pageCount - 2 - index)
                    (outputWidth / ntwo)%js nzero in
  let outputPdf := drawSlot frontPage frontLeftBottom outputPdf in
  drawSlot frontPage frontRightBottom outputPdf.

(** [for (let index = ...; index < finalPageCount / 2; index += 2)].
    [finalPageCount] is a multiple of 4, so the integer quotient is
    the value of [finalPageCount / 2]. *)
Equations? loop (index : Z) (outputPdf : PDFDocument num)
  : PDFDocument num
  by wf (Z.to_nat (finalPageCount pageCount / 2 - index)) lt :=
  loop index outputPdf with Z_lt_dec index (finalPageCount pageCount / 2) => {
    | left _ => loop (index + 2) (body index outputPdf);
    | right _ => outputPdf }.
Proof. lia. Qed.

(** The pages of [outputPdf] when the loop is left. *)
Definition impose : PDFDocument num := loop 0 [].

(** Two views used to state what the loop produces: the placements
    that [drawSlot] draws for a slot, and the sheet side whose left
    slot (offset [0]) is asked for logical page [left] and whose
    right slot (offset [outputWidth / 2]) for logical page [right]. *)
Definition stamps (slot : option (Placement num)) : list (Placement num) :=
  match slot with
  | Some bottom =>
      if Options.double options then [bottom; top bottom] else [bottom]
  | None => []
  end.

Definition side (left right : Z) : PDFPage num :=
  mkPage (outputWidth, outputHeight)
         (stamps (addPageToOutput left nzero nzero)
            ++ stamps (addPageToOutput right (outputWidth / ntwo)%js nzero)).
End Engine.

Definition pdfToBooklet (inputPath outputPath : string)
           (options : Options num) : Script num unit :=
  inputPdf ← loadFile inputPath;
  let pageCount := getPageCount inputPdf in
  let firstPage := getPage inputPdf 0 in
  firstSize ← getSize_of firstPage;
  let '(origWidth, origHeight) := firstSize in
  size ← (if Options.useA3 options then PageSizes_A3_reverse
           else PageSizes_A4_reverse);
  let '(outputWidth, outputHeight) := size in
  let outputPdf :=
    impose options pageCount origWidth origHeight outputWidth outputHeight in
  saveFile outputPath outputPdf.

(** [processBatch], on the entries [files] that [readdirSync] returned
    for [inputDirectory]. *)
Fixpoint processBatch_for (inputDirectory outputDirectory : string)
         (options : Options num) (files : list string) : Script num unit :=
  match files with
  | [] => mret tt
  | file :: files =>
      (if endsWith (toLowerCase file) ".pdf"
       then
         let inputPath := join inputDirectory file in
         let name := parse_name file in
         let outputPath :=
           join outputDirectory (name ++ "-booklet.pdf") in
         console_info ("Processing: " ++ file);;
         pdfToBooklet inputPath outputPath options;;
         console_info ("Created booklet: " ++ outputPath)
       else mret tt);;
      processBatch_for inputDirectory outputDirectory options files
  end.

Definition processBatch (inputDirectory outputDirectory : string)
           (options : Options num) (files : list string) : Script num unit :=
  processBatch_for inputDirectory outputDirectory options files.

(** The batch branch of the top level, after both paths were found to
    be directories. *)
Definition batchMode (inputPath outputPath : string)
           (options : Options num) (files : list string) : Script num unit :=
  try_catch
    (processBatch inputPath outputPath options files;;
     console_info "Batch processing completed successfully")
    (fun err => console_error "Error in batch processing:" err).

(** The single-file branch of the top level. *)
Definition singleMode (inputPath outputPath : string)
           (options : Options num) : Script num unit :=
  try_catch
    (pdfToBooklet inputPath outputPath options;;
     console_info ("Saddle-stitch booklet created successfully: "
                     ++ outputPath))
    (fun err => console_error "Error creating booklet:" err).
End Script.

End Main.

(** ** The minimal script: only [--a3], no padding, no double print *)

Module Minimal.

Module Options.
Record t := mk { useA3 : bool }.
End Options.
Abbreviation Options := Options.t.

Section Script.
Context {num : Type} {NUM : JsNumber num}.
Variable join : string -> string -> string.

Section Engine.
Variable pageCount : Z.
Variables origWidth origHeight : num.
Variables outputWidth outputHeight : num.

Definition scaleX : num := (outputWidth / (ntwo * origWidth))%js.
Definition scaleY : num := (outputHeight / origHeight)%js.
Definition scale : num := nmin scaleX scaleY.

Definition addPageToOutput (pageNumber : Z) (x0 : num)
  : option (Placement num) :=
  if pageNumber <? pageCount
  then Some {| x := x0;
               y := ((outputHeight - origHeight * scale) / ntwo)%js;
               width := (origWidth * scale)%js;
               height := (origHeight * scale)%js;
               page := pageNumber |}
  else None.

(** [if (slot) { drawPage(slot) }] *)
Definition drawSlot (handle : nat) (slot : option (Placement num))
           (outputPdf : PDFDocument num) : PDFDocument num :=
  match slot with
  | Some p => drawPage handle p outputPdf
  | None => outputPdf
  end.

Definition body (index : Z) (outputPdf : PDFDocument num)
  : PDFDocument num :=
  let '(outputPage, outputPdf) :=
    addPage (outputWidth, outputHeight) outputPdf in
  (* Back side *)
  let backLeft :=
    addPageToOutput (finalPageCount pageCount - 1 - index) nzero in
  let backRight := addPageToOutput index (outputWidth / ntwo)%js in
  let outputPdf := drawSlot outputPage backLeft outputPdf in
  let outputPdf := drawSlot outputPage backRight outputPdf in
  (* Front side *)
  let '(frontPage, outputPdf) :=
    addPage (outputWidth, outputHeight) outputPdf in
  let frontLeft := addPageToOutput (index + 1) nzero in
  let frontRight :=
    addPageToOutput (finalPageCount pageCount - 2 - index)
                    (outputWidth / ntwo)%js in
  let outputPdf := drawSlot frontPage frontLeft outputPdf in
  drawSlot frontPage frontRight outputPdf.

Equations? loop (index : Z) (outputPdf : PDFDocument num)
  : PDFDocument num
  by wf (Z.to_nat (finalPageCount pageCount / 2 - index)) lt :=
  loop index outputPdf with Z_lt_dec index (finalPageCount pageCount / 2) => {
    | left _ => loop (index + 2) (body index outputPdf);
    | right _ => outputPdf }.
Proof. lia. Qed.

Definition impose : PDFDocument num := loop 0 [].

(** The same two views as for the full script. *)
Definition stamps (slot : option (Placement num)) : list (Placement num) :=
  match slot with
  | Some p => [p]
  | None => []
  end.

Definition side (left right : Z) : PDFPage num :=
  mkPage (outputWidth, outputHeight)
         (stamps (addPageToOutput left nzero)
            ++ stamps (addPageToOutput right (outputWidth / ntwo)%js)).
End Engine.

Definition pdfToBooklet (inputPath outputPath : string)
           (options : Options) : Script num unit :=
  inputPdf ← loadFile inputPath;
  let pageCount := getPageCount inputPdf in
  let firstPage := getPage inputPdf 0 in
  firstSize ← getSize_of firstPage;
  let '(origWidth, origHeight) := firstSize in
  size ← (if Options.useA3 options then PageSizes_A3_reverse
           else PageSizes_A4_reverse);
  let '(outputWidth, outputHeight) := size in
  let outputPdf :=
    impose pageCount origWidth origHeight outputWidth outputHeight in
  saveFile outputPath outputPdf.

Fixpoint processBatch_for (inputDirectory outputDirectory : string)
         (options : Options) (files : list string) : Script num unit :=
  match files with
  | [] => mret tt
  | file :: files =>
      (if endsWith (toLowerCase file) ".pdf"
       then
         let inputPath := join inputDirectory file in
         let name := parse_name file in
         let outputPath :=
           join outputDirectory (name ++ "-booklet.pdf") in
         console_info ("Processing: " ++ file);;
         pdfToBooklet inputPath outputPath options;;
         console_info ("Created booklet: " ++ outputPath)
       else mret tt);;
      processBatch_for inputDirectory outputDirectory options files
  end.

Definition processBatch (inputDirectory outputDirectory : string)
           (options : Options) (files : list string) : Script num unit :=
  processBatch_for inputDirectory outputDirectory options files.

Definition batchMode (inputPath outputPath : string)
           (options : Options) (files : list string) : Script num unit :=
  try_catch
    (processBatch inputPath outputPath options files;;
     console_info "Batch processing completed successfully")
    (fun err => console_error "Error in batch processing:" err).
End Script.

End Minimal.

(** ** The top level of the scripts

    The statements that follow the function declarations: the command
    line is read into [options], the usage is printed when a path is
    missing, and the input path decides between batch and single-file
    mode. *)

(** How a run of a script ends: [process.exit(code)], preceded by the
    lines given to [console.error] on their own; the end of the script;
    or an exception that nothing catches (Node then exits with status 1). *)
Inductive Termination :=
| exit (code : Z) (stderr : list string)
| completed
| uncaught (e : Error).

Definition exitCode (t : Termination) : Z :=
  match t with
  | exit code _ => code
  | completed => 0
  | uncaught _ => 1
  end.

(** [arguments_.includes(flag)] *)
Definition includes (arguments_ : list string) (flag : string) : bool :=
  existsb (String.eqb flag) arguments_.

(** [arguments_.indexOf(s)]: the first position of [s], or -1. *)
Fixpoint indexOf (arguments_ : list string) (s : string) : Z :=
  match arguments_ with
  | [] => -1
  | a :: rest =>
      if String.eqb a s then 0
      else let i := indexOf rest s in
           if i =? -1 then -1 else i + 1
  end.

(** [arguments_[i]]; [undefined] is [None]. *)
Definition at_index (arguments_ : list string) (i : Z) : option string :=
  if i <? 0 then None else arguments_ !! Z.to_nat i.

(** ToBoolean of a string or [undefined]: only a string that is not empty
    is truthy. *)
Definition truthy_string (s : option string) : bool :=
  match s with
  | Some (String _ _) => true
  | _ => false
  end.

(** A path in a position where [undefined] has been excluded. *)
Definition path_of (s : option string) : string :=
  match s with
  | Some path => path
  | None => EmptyString
  end.

Module MainScript.

Section TopLevel.
Context {num : Type} {NUM : JsNumber num}.
(** [nodePath.join] *)
Variable join : string -> string -> string.
(** [Number.parseFloat], also of [undefined] *)
Variable parseFloat : option string -> num.
(** [statSync(path).isDirectory()]; [None] when [statSync] throws because
    nothing is at [path] *)
Variable isDirectory : string -> option bool.
(** [readdirSync(path)] of a directory *)
Variable readdirSync : string -> list string.

(** The [options] object after the [--padding] statement. *)
Definition options (arguments_ : list string) : Main.Options num :=
  let options :=
    Main.Options.mk num (includes arguments_ "--a3")
                    (includes arguments_ "--debug")
                    (includes arguments_ "--double")
                    nzero in
  let paddingIndex := indexOf arguments_ "--padding" in
  if negb (paddingIndex =? -1)
     && (paddingIndex <? Z.of_nat (length arguments_) - 1)
  then Main.Options.mk num (Main.Options.useA3 options)
                       (Main.Options.debug options)
                       (Main.Options.double options)
                       (parseFloat (at_index arguments_ (paddingIndex + 1)))
  else options.

Definition usage : list ConsoleLine :=
  [info "Usage: node script.js <input_path> <output_path> [--a3] [--debug] [--double] [--padding <padding>]";
   info "  <input_path>: Path to input PDF file or directory";
   info "  <output_path>: Path to output PDF file or directory (for batch mode)";
   info "  --a3: Use A3 size instead of A4";
   info "  --debug: Enable additional logging";
   info "  --double: print two of each page";
   info "  --padding: Padding between pages in points (default: 0)"].

(** The whole script on [arguments_ = process.argv.slice(2)]. *)
Definition script (arguments_ : list string) (w : World num)
  : Termination * World num :=
  let inputPath := at_index arguments_ 0 in
  let outputPath := at_index arguments_ 1 in
  let options := options arguments_ in
  if negb (truthy_string inputPath && truthy_string outputPath)
  then (exit 1 [],
        mkWorld (PageSizes w) (fs w) (console w ++ usage))
  else
    let inputPath := path_of inputPath in
    let outputPath := path_of outputPath in
    match isDirectory inputPath with
    | None => (uncaught (ENOENT inputPath), w)
    | Some true =>
        match isDirectory outputPath with
        | None => (uncaught (ENOENT outputPath), w)
        | Some false =>
            (exit 1 ["Error: In batch mode, output path must be a directory"],
             w)
        | Some true =>
            match Main.batchMode join inputPath outputPath options
                                 (readdirSync inputPath) w with
            | (Returned _, w') => (completed, w')
            | (Thrown e, w') => (uncaught e, w')
            end
        end
    | Some false =>
        match Main.singleMode inputPath outputPath options w with
        | (Returned _, w') => (completed, w')
        | (Thrown e, w') => (uncaught e, w')
        end
    end.
End TopLevel.

End MainScript.

Module MinimalScript.

Section TopLevel.
Context {num : Type} {NUM : JsNumber num}.
Variable join : string -> string -> string.
Variable isDirectory : string -> option bool.
Variable readdirSync : string -> list string.

Definition options (arguments_ : list string) : Minimal.Options :=
  Minimal.Options.mk (includes arguments_ "--a3").

Definition usage : list ConsoleLine :=
  [info "Usage: node script.js <input_path> <output_path> [--a3]";
   info "  <input_path>: Path to input PDF file or directory";
   info "  <output_path>: Path to output PDF file or directory (for batch mode)";
   info "  --a3: Use A3 size instead of A4"].

(** The single-file branch of the top level. *)
Definition singleMode (inputPath outputPath : string)
           (options : Minimal.Options) : Script num unit :=
  try_catch
    (Minimal.pdfToBooklet inputPath outputPath options;;
     console_info ("Saddle-stitch booklet created successfully: "
                     ++ outputPath))
    (fun err => console_error "Error creating booklet:" err).

Definition script (arguments_ : list string) (w : World num)
  : Termination * World num :=
  let inputPath := at_index arguments_ 0 in
  let outputPath := at_index arguments_ 1 in
  let options := options arguments_ in
  if negb (truthy_string inputPath && truthy_string outputPath)
  then (exit 1 [],
        mkWorld (PageSizes w) (fs w) (console w ++ usage))
  else
    let inputPath := path_of inputPath in
    let outputPath := path_of outputPath in
    match isDirectory inputPath with
    | None => (uncaught (ENOENT inputPath), w)
    | Some true =>
        match isDirectory outputPath with
        | None => (uncaught (ENOENT outputPath), w)
        | Some false =>
            (exit 1 ["Error: In batch mode, output path must be a directory"],
             w)
        | Some true =>
            match Minimal.batchMode join inputPath outputPath options
                                    (readdirSync inputPath) w with
            | (Returned _, w') => (completed, w')
            | (Thrown e, w') => (uncaught e, w')
            end
        end
    | Some false =>
        match singleMode inputPath outputPath options w with
        | (Returned _, w') => (completed, w')
        | (Thrown e, w') => (uncaught e, w')
        end
    end.
End TopLevel.

End MinimalScript.

(** ** Views of the output used to state coverage *)

(** The logical pages that the loop asks for, in the order of its calls
    of [addPageToOutput]. *)
Definition asked_pages (finalPageCount : Z) (indices : list Z) : list Z :=
  flat_map (fun index => [finalPageCount - 1 - index; index;
                          index + 1; finalPageCount - 2 - index])
           indices.

(** The source pages of the placements of a document, in drawing order. *)
Definition placed_pages {num : Type} (doc : PDFDocument num) : list Z :=
  flat_map (fun pg => map page (drawn pg)) doc.

(** What a placed page contributes to the placements: one, or two under
    double print. *)
Definition copies (double : bool) (n : Z) : list Z :=
  if double then [n; n] else [n].

(** [0; 1; ...; n - 1] *)
Definition page_numbers (n : Z) : list Z :=
  map Z.of_nat (seq 0 (Z.to_nat n)).

(** ** Views of a run and of a batch used to state their effects *)

(** The error of a run, read off what is at the input path. *)
Definition errorFor {num : Type} (inputPath : string) (w : World num) : Error :=
  match fs w !! inputPath with
  | None => ENOENT inputPath
  | Some OtherFile => InvalidPDF inputPath
  | Some (PdfFile _) => TypeError "getSize"
  end.

(** A path holds a PDF with at least one page. *)
Definition convertible {num : Type} (w : World num) (path : string) : Prop :=
  exists doc : PDFDocument num,
    doc <> [] /\ fs w !! path = Some (PdfFile doc).

(** The entries that [processBatch] processes. *)
Definition pdf_entries (files : list string) : list string :=
  List.filter (fun file => endsWith (toLowerCase file) ".pdf") files.

(** The output path of an entry. *)
Definition outputPathOf (join : string -> string -> string)
           (outputDirectory file : string) : string :=
  join outputDirectory (parse_name file ++ "-booklet.pdf")%string.

(** The two lines that [processBatch] prints for each entry it converts. *)
Definition batch_lines (join : string -> string -> string)
           (outputDirectory : string) (files : list string)
  : list ConsoleLine :=
  flat_map (fun file =>
              [info ("Processing: " ++ file);
               info ("Created booklet: " ++ outputPathOf join outputDirectory file)])
           (pdf_entries files).

(** ** Values of pdf-lib used to run the scripts *)

(** [PageSizes.A4] and [PageSizes.A3] as pdf-lib ships them, in points
    (portrait: width first). *)
Definition pdflib_PageSizes : PageSizesT Q :=
  {| A4 := (59528 # 100, 84189 # 100)%Q;
     A3 := (84189 # 100, 119055 # 100)%Q |}.

(** ** The enumeration of the specification *)

(** The values of [index] as the specification lists them: the even
    numbers from 0 that are below [finalPageCount / 2]. *)
Definition spec_indices (finalPageCount : Z) : list Z :=
  List.filter Z.even (map Z.of_nat (seq 0 (Z.to_nat (finalPageCount / 2)))).

(** Sample inputs: a portrait A4 first page, the landscape A4 sheet, and
    options with and without [--double] and [--padding]. *)
Definition plain_options : Main.Options Q :=
  Main.Options.mk Q false false false 0%Q.

Definition double_options : Main.Options Q :=
  Main.Options.mk Q false false true 10%Q.

(** A padding of 250 points: below half of either dimension of the
    landscape A4 sheet, above a quarter of its width. *)
Definition wide_padding_options : Main.Options Q :=
  Main.Options.mk Q false false false 250%Q.

Definition a4_page : PDFPage Q := mkPage (A4 pdflib_PageSizes) [].

Definition a4_sheet : Q * Q := reverse (A4 pdflib_PageSizes).

Definition five_pages : PDFDocument Q := repeat a4_page 5.

(** The same sizes and paddings in binary64. *)
#[warnings="-inexact-float"]
Definition a4_width_binary64 : float := 595.28%float.

#[warnings="-inexact-float"]
Definition a4_height_binary64 : float := 841.89%float.

Definition plain_options_binary64 : Main.Options float :=
  Main.Options.mk float false false false 0%float.

Definition wide_padding_options_binary64 : Main.Options float :=
  Main.Options.mk float false false false 250%float.

(** A store with two good inputs around a file that is not a PDF. *)
Definition sample_world : World Q :=
  mkWorld pdflib_PageSizes
          (<["in/a.pdf" := PdfFile five_pages]>
             (<["in/b.pdf" := OtherFile]>
                (<["in/c.pdf" := PdfFile five_pages]> ∅)))
          [].

(** A store whose input has one page with a media box of negative
    width. *)
Definition negative_width_world : World Q :=
  mkWorld pdflib_PageSizes
          (<["in.pdf" := PdfFile [mkPage ((-100) # 1, 200 # 1)%Q []]]> ∅)
          [].

Definition slash_join (directory file : string) : string :=
  (directory ++ "/" ++ file)%string.

(** [first, first + 2, ...], [n] values. *)
Definition evens_from (first : Z) (n : nat) : list Z :=
  map (fun k => first + 2 * Z.of_nat k) (seq 0 n).

(** ** Statements of the specification that the scripts do not meet

    Each is written down as the specification has it, at one input, so
    that it can be evaluated there. *)

(** "One bad input must not abort the batch": after the batch, the output
    of every entry that is a PDF with at least one page has been written. *)
Definition batch_survives_failure (join : string -> string -> string)
           (inputDirectory outputDirectory : string)
           (options : Main.Options Q) (files : list string) (w : World Q)
  : Prop :=
  forall (file : string) (doc : PDFDocument Q),
    In file files ->
    endsWith (toLowerCase file) ".pdf" = true ->
    fs w !! join inputDirectory file = Some (PdfFile doc) ->
    doc <> [] ->
    is_Some (fs (snd (Main.batchMode join inputDirectory outputDirectory
                                     options files w))
               !! join outputDirectory (parse_name file ++ "-booklet.pdf")%string).

(** "Fail fast": the run throws and has written nothing. *)
Definition fails_fast (inputPath outputPath : string)
           (options : Main.Options Q) (w : World Q) : Prop :=
  exists e, Main.pdfToBooklet inputPath outputPath options w = (Thrown e, w).

(** "Malformed inputs are precondition violations": a document without
    pages, or whose first page has a non-positive width or height, makes
    the run fail fast. *)
Definition rejects_malformed (inputPath outputPath : string)
           (options : Main.Options Q) (w : World Q) : Prop :=
  forall doc : PDFDocument Q,
    fs w !! inputPath = Some (PdfFile doc) ->
    match doc with
    | [] => True
    | firstPage :: _ =>
        (fst (getSize firstPage) <= 0 \/ snd (getSize firstPage) <= 0)%Q
    end ->
    fails_fast inputPath outputPath options w.

(** "scale > 0 for positive dimensions and non-negative padding smaller
    than half the sheet dimension". *)
Definition scale_positive_below_half (options : Main.Options Q)
           (origWidth origHeight outputWidth outputHeight : Q) : Prop :=
  (0 < origWidth ->
   0 < origHeight ->
   0 <= Main.Options.padding options ->
   Main.Options.padding options < outputWidth / 2 ->
   Main.Options.padding options < outputHeight / 2 ->
   0 < Main.scale options origWidth origHeight outputWidth outputHeight)%Q.

(** "padding = 0 reduces to the simpler horizontal term, but not to the
    simpler vertical term when doublePrint is false". *)
Definition generalizes_horizontally_only (options : Main.Options Q)
           (origWidth origHeight outputWidth outputHeight : Q) : Prop :=
  (0 < origWidth ->
   0 < origHeight ->
   Main.Options.padding options == 0 ->
   Main.scaleX options origWidth outputWidth
   == Minimal.scaleX origWidth outputWidth
   /\ (Main.Options.double options = false ->
       ~ Main.scaleY options origHeight outputHeight
         == Minimal.scaleY origHeight outputHeight))%Q.

(** * Properties *)

(** ** Lists and handles *)

Lemma evens_from_S (first : Z) (n : nat) :
  evens_from first (S n) = first :: evens_from (first + 2) n.
Proof.
  unfold evens_from. simpl. rewrite Z.add_0_r. f_equal.
  rewrite <- seq_shift, map_map. apply map_ext. intro k. lia.
Qed.

Lemma evens_from_snoc (n : nat) :
  evens_from 0 (S n) = evens_from 0 n ++ [2 * Z.of_nat n].
Proof.
  unfold evens_from. rewrite seq_S, map_app. reflexivity.
Qed.

Lemma spec_indices_even_bound (m : nat) :
  List.filter Z.even (map Z.of_nat (seq 0 (2 * m))) = evens_from 0 m.
Proof.
  induction m as [|m IH]; [reflexivity|].
  replace (2 * S m)%nat with (S (S (2 * m))) by lia.
  rewrite !seq_S, !map_app, !List.filter_app, IH, evens_from_snoc.
  rewrite <- app_assoc. f_equal. cbn [map List.filter Nat.add].
  replace (Z.of_nat (S (2 * m))) with (1 + 2 * Z.of_nat m) by lia.
  replace (Z.of_nat (2 * m)) with (0 + 2 * Z.of_nat m) by lia.
  rewrite !Z.even_add_mul_2. reflexivity.
Qed.


Lemma finalPageCount_div (pageCount : Z) :
  finalPageCount pageCount = (pageCount + 3) / 4 * 4.
Proof.
  unfold finalPageCount. f_equal.
  unfold Qceiling, Qfloor, Qdiv, Qopp, Qmult, Qinv, inject_Z; simpl.
  change (Z.pos (1 * 4)) with 4. rewrite Z.mul_1_r.
  pose proof (Z.div_mod (- pageCount) 4 ltac:(lia)) as Hm.
  pose proof (Z.mod_pos_bound (- pageCount) 4 ltac:(lia)) as Hb.
  pose proof (Z.div_mod (pageCount + 3) 4 ltac:(lia)) as Hn.
  pose proof (Z.mod_pos_bound (pageCount + 3) 4 ltac:(lia)) as Hc.
  lia.
Qed.

Section Handles.
Context {num : Type}.

(** Drawing through the handle of the page added last. *)
Lemma drawPage_last (doc : PDFDocument num) (pg : PDFPage num)
      (p : Placement num) :
  drawPage (length doc) p (doc ++ [pg])
  = doc ++ [mkPage (getSize pg) (drawn pg ++ [p])].
Proof.
  unfold drawPage. induction doc as [|d doc IH]; simpl.
  - reflexivity.
  - f_equal. exact IH.
Qed.

(** A loop that advances [index] by 2 while it is below [limit] and
    appends [sides index] in each round. *)
Lemma loop_by_twos (limit : Z)
      (loop : Z -> PDFDocument num -> PDFDocument num)
      (body : Z -> PDFDocument num -> PDFDocument num)
      (sides : Z -> list (PDFPage num))
      (Hloop : forall index doc,
          loop index doc
          = if Z_lt_dec index limit then loop (index + 2) (body index doc)
            else doc)
      (Hbody : forall index doc, body index doc = doc ++ sides index) :
  forall (n : nat) (index : Z) (doc : PDFDocument num),
    limit <= index + 2 * Z.of_nat n ->
    (n <> O -> index + 2 * (Z.of_nat n - 1) < limit) ->
    loop index doc = doc ++ flat_map sides (evens_from index n).
Proof.
  induction n as [|n IH]; intros index doc Hle Hlt; rewrite Hloop.
  - destruct (Z_lt_dec index limit); [lia|].
    simpl. rewrite app_nil_r. reflexivity.
  - destruct (Z_lt_dec index limit); [|lia].
    rewrite IH, Hbody, evens_from_S by lia.
    simpl. rewrite <- app_assoc. reflexivity.
Qed.
End Handles.

(** The loop bound is even: [finalPageCount / 2] is twice the number of
    rounds. *)
Lemma finalPageCount_half (pageCount : Z) :
  finalPageCount pageCount / 2 = 2 * ((pageCount + 3) / 4).
Proof.
  rewrite finalPageCount_div.
  replace ((pageCount + 3) / 4 * 4) with (2 * ((pageCount + 3) / 4) * 2) by lia.
  apply Z.div_mul. lia.
Qed.

Lemma spec_indices_evens (pageCount : Z) :
  spec_indices (finalPageCount pageCount)
  = evens_from 0 (Z.to_nat ((pageCount + 3) / 4)).
Proof.
  unfold spec_indices. rewrite finalPageCount_half.
  rewrite <- spec_indices_even_bound. do 3 f_equal. lia.
Qed.

(** ** The engine of the full script *)

Section MainEngine.
Context {num : Type} {NUM : JsNumber num}.
Variable options : Main.Options num.
Variable pageCount : Z.
Variables origWidth origHeight outputWidth outputHeight : num.

Local Abbreviation addPageToOutput :=
  (Main.addPageToOutput options pageCount origWidth origHeight
                        outputWidth outputHeight).
Local Abbreviation stamps := (Main.stamps options outputHeight).
Local Abbreviation side :=
  (Main.side options pageCount origWidth origHeight outputWidth outputHeight).
Local Abbreviation body :=
  (Main.body options pageCount origWidth origHeight outputWidth outputHeight).
Local Abbreviation loop :=
  (Main.loop options pageCount origWidth origHeight outputWidth outputHeight).
Local Abbreviation impose :=
  (Main.impose options pageCount origWidth origHeight outputWidth outputHeight).

Lemma Main_drawSlot_last (doc : PDFDocument num) (pg : PDFPage num)
      (slot : option (Placement num)) :
  Main.drawSlot options outputHeight (length doc) slot (doc ++ [pg])
  = doc ++ [mkPage (getSize pg) (drawn pg ++ stamps slot)].
Proof.
  unfold Main.drawSlot, Main.stamps. destruct slot as [bottom|].
  - destruct (Main.Options.double options).
    + rewrite !drawPage_last. simpl. rewrite <- app_assoc. reflexivity.
    + rewrite drawPage_last. reflexivity.
  - rewrite app_nil_r. destruct pg; reflexivity.
Qed.

Lemma Main_draw_side (doc : PDFDocument num) (size : num * num)
      (left right : option (Placement num)) :
  Main.drawSlot options outputHeight (length doc) right
    (Main.drawSlot options outputHeight (length doc) left
       (doc ++ [mkPage size []]))
  = doc ++ [mkPage size (stamps left ++ stamps right)].
Proof. rewrite !Main_drawSlot_last. reflexivity. Qed.

Lemma Main_body_sides (index : Z) (doc : PDFDocument num) :
  body index doc
  = doc ++ [side (finalPageCount pageCount - 1 - index) index;
            side (index + 1) (finalPageCount pageCount - 2 - index)].
Proof.
  unfold Main.body, addPage.
  rewrite Main_draw_side, Main_draw_side, <- app_assoc. reflexivity.
Qed.

Lemma Main_loop_unfold (index : Z) (doc : PDFDocument num) :
  loop index doc
  = if Z_lt_dec index (finalPageCount pageCount / 2)
    then loop (index + 2) (body index doc)
    else doc.
Proof.
  rewrite Main.loop_equation_1.
  destruct (Z_lt_dec index (finalPageCount pageCount / 2)); reflexivity.
Qed.

(** The document that the loop leaves: two sides per value of [index]. *)
Lemma Main_impose_sides :
  impose
  = flat_map
      (fun index =>
         [side (finalPageCount pageCount - 1 - index) index;
          side (index + 1) (finalPageCount pageCount - 2 - index)])
      (spec_indices (finalPageCount pageCount)).
Proof.
  unfold Main.impose. rewrite spec_indices_evens.
  rewrite (loop_by_twos _ _ _ _ Main_loop_unfold Main_body_sides
             (Z.to_nat ((pageCount + 3) / 4))).
  - reflexivity.
  - rewrite finalPageCount_half. lia.
  - rewrite finalPageCount_half. lia.
Qed.
Lemma Main_impose_In (pg : PDFPage num) :
  In pg impose -> exists left right : Z, pg = side left right.
Proof.
  rewrite Main_impose_sides, in_flat_map.
  intros (index & _ & [<- | [<- | []]]); eauto.
Qed.

(** Every placement of a slot is the bottom stamp or its copy on top. *)
Lemma Main_stamps_In (slot : option (Placement num)) (p : Placement num) :
  In p (stamps slot) ->
  exists bottom, slot = Some bottom
                 /\ (p = bottom \/ p = Main.top options outputHeight bottom).
Proof.
  unfold Main.stamps. destruct slot as [bottom|]; [|intros []].
  intros Hin. exists bottom. split; [reflexivity|].
  destruct (Main.Options.double options); simpl in Hin; intuition auto.
Qed.

Lemma Main_addPageToOutput_Some (pageNumber : Z) (x0 y0 : num)
      (bottom : Placement num) :
  addPageToOutput pageNumber x0 y0 = Some bottom ->
  pageNumber < pageCount
  /\ bottom = {| x := (x0 + Main.padding options)%js;
                 y := (y0 + Main.padding options)%js;
                 width := (origWidth * Main.scale options origWidth origHeight
                                         outputWidth outputHeight)%js;
                 height := (origHeight * Main.scale options origWidth origHeight
                                           outputWidth outputHeight)%js;
                 page := pageNumber |}.
Proof.
  unfold Main.addPageToOutput.
  destruct (Z.ltb_spec pageNumber pageCount); [|discriminate].
  intros [= <-]. split; [assumption | reflexivity].
Qed.

(** A placement found in the output comes from a call of
    [addPageToOutput] that returned an object. *)
Lemma Main_placement_origin (pg : PDFPage num) (p : Placement num) :
  In pg impose -> In p (drawn pg) ->
  exists pageNumber x0 bottom,
    addPageToOutput pageNumber x0 nzero = Some bottom
    /\ (p = bottom \/ p = Main.top options outputHeight bottom).
Proof.
  intros Hpg Hp. destruct (Main_impose_In pg Hpg) as (l & r & ->).
  unfold Main.side in Hp. cbn [drawn] in Hp.
  apply in_app_or in Hp.
  destruct Hp as [Hp | Hp]; apply Main_stamps_In in Hp;
    destruct Hp as (bottom & Hb & Hp); eauto.
Qed.
End MainEngine.

(** ** The engine of the minimal script *)

Section MinimalEngine.
Context {num : Type} {NUM : JsNumber num}.
Variable pageCount : Z.
Variables origWidth origHeight outputWidth outputHeight : num.

Local Abbreviation addPageToOutput :=
  (Minimal.addPageToOutput pageCount origWidth origHeight
                           outputWidth outputHeight).
Local Abbreviation side :=
  (Minimal.side pageCount origWidth origHeight outputWidth outputHeight).
Local Abbreviation body :=
  (Minimal.body pageCount origWidth origHeight outputWidth outputHeight).
Local Abbreviation loop :=
  (Minimal.loop pageCount origWidth origHeight outputWidth outputHeight).
Local Abbreviation impose :=
  (Minimal.impose pageCount origWidth origHeight outputWidth outputHeight).

Lemma Minimal_draw_side (doc : PDFDocument num) (size : num * num)
      (left right : option (Placement num)) :
  Minimal.drawSlot (length doc) right
    (Minimal.drawSlot (length doc) left (doc ++ [mkPage size []]))
  = doc ++ [mkPage size (Minimal.stamps left ++ Minimal.stamps right)].
Proof.
  destruct left, right; unfold Minimal.drawSlot;
    rewrite ?drawPage_last; cbn [getSize drawn app Minimal.stamps];
    rewrite ?drawPage_last; reflexivity.
Qed.

Lemma Minimal_body_sides (index : Z) (doc : PDFDocument num) :
  body index doc
  = doc ++ [side (finalPageCount pageCount - 1 - index) index;
            side (index + 1) (finalPageCount pageCount - 2 - index)].
Proof.
  unfold Minimal.body, addPage.
  rewrite Minimal_draw_side, Minimal_draw_side, <- app_assoc. reflexivity.
Qed.

Lemma Minimal_loop_unfold (index : Z) (doc : PDFDocument num) :
  loop index doc
  = if Z_lt_dec index (finalPageCount pageCount / 2)
    then loop (index + 2) (body index doc)
    else doc.
Proof.
  rewrite Minimal.loop_equation_1.
  destruct (Z_lt_dec index (finalPageCount pageCount / 2)); reflexivity.
Qed.

Lemma Minimal_impose_sides :
  impose
  = flat_map
      (fun index =>
         [side (finalPageCount pageCount - 1 - index) index;
          side (index + 1) (finalPageCount pageCount - 2 - index)])
      (spec_indices (finalPageCount pageCount)).
Proof.
  unfold Minimal.impose. rewrite spec_indices_evens.
  rewrite (loop_by_twos _ _ _ _ Minimal_loop_unfold Minimal_body_sides
             (Z.to_nat ((pageCount + 3) / 4)));
    [reflexivity | rewrite finalPageCount_half; lia ..].
Qed.

Lemma Minimal_impose_In (pg : PDFPage num) :
  In pg impose -> exists left right : Z, pg = side left right.
Proof.
  rewrite Minimal_impose_sides, in_flat_map.
  intros (index & _ & [<- | [<- | []]]); eauto.
Qed.

Lemma Minimal_placement_origin (pg : PDFPage num) (p : Placement num) :
  In pg impose -> In p (drawn pg) ->
  exists pageNumber x0, addPageToOutput pageNumber x0 = Some p.
Proof.
  intros Hpg Hp. destruct (Minimal_impose_In pg Hpg) as (l & r & ->).
  unfold Minimal.side in Hp. cbn [drawn] in Hp.
  apply in_app_or in Hp.
  destruct Hp as [Hp | Hp];
    match type of Hp with
    | In _ (Minimal.stamps ?slot) =>
        destruct slot as [q|] eqn:E; simpl in Hp; [|contradiction];
        destruct Hp as [-> | []]; eauto
    end.
Qed.
End MinimalEngine.

(** ** One run of [pdfToBooklet] *)

Section Runs.
Context {num : Type} {NUM : JsNumber num}.

Lemma Main_pdfToBooklet_empty (inputPath outputPath : string)
      (options : Main.Options num) (w : World num) :
  fs w !! inputPath = Some (PdfFile []) ->
  Main.pdfToBooklet inputPath outputPath options w
  = (Thrown (TypeError "getSize"), w).
Proof.
  intros Hin. unfold Main.pdfToBooklet, mbind, Script_bind, loadFile.
  rewrite Hin. reflexivity.
Qed.

Lemma Main_pdfToBooklet_returns (inputPath outputPath : string)
      (options : Main.Options num) (w : World num)
      (firstPage : PDFPage num) (rest : PDFDocument num) :
  fs w !! inputPath = Some (PdfFile (firstPage :: rest)) ->
  Main.pdfToBooklet inputPath outputPath options w
  = (Returned tt,
     mkWorld (reversedSizes (Main.Options.useA3 options) w)
             (<[outputPath :=
                  PdfFile (Main.impose options
                             (getPageCount (firstPage :: rest))
                             (fst (getSize firstPage)) (snd (getSize firstPage))
                             (fst (sheetOf (Main.Options.useA3 options) w))
                             (snd (sheetOf (Main.Options.useA3 options) w)))]>
                (fs w))
             (console w)).
Proof.
  intros Hin. unfold Main.pdfToBooklet, mbind, Script_bind, loadFile.
  rewrite Hin. unfold getPage, getSize_of. simpl.
  destruct (getSize firstPage) as [origWidth origHeight].
  unfold sheetOf, reversedSizes.
  destruct (Main.Options.useA3 options); reflexivity.
Qed.

Lemma Minimal_pdfToBooklet_empty (inputPath outputPath : string)
      (options : Minimal.Options) (w : World num) :
  fs w !! inputPath = Some (PdfFile []) ->
  Minimal.pdfToBooklet inputPath outputPath options w
  = (Thrown (TypeError "getSize"), w).
Proof.
  intros Hin. unfold Minimal.pdfToBooklet, mbind, Script_bind, loadFile.
  rewrite Hin. reflexivity.
Qed.

Lemma Minimal_pdfToBooklet_returns (inputPath outputPath : string)
      (options : Minimal.Options) (w : World num)
      (firstPage : PDFPage num) (rest : PDFDocument num) :
  fs w !! inputPath = Some (PdfFile (firstPage :: rest)) ->
  Minimal.pdfToBooklet inputPath outputPath options w
  = (Returned tt,
     mkWorld (reversedSizes (Minimal.Options.useA3 options) w)
             (<[outputPath :=
                  PdfFile (Minimal.impose
                             (getPageCount (firstPage :: rest))
                             (fst (getSize firstPage)) (snd (getSize firstPage))
                             (fst (sheetOf (Minimal.Options.useA3 options) w))
                             (snd (sheetOf (Minimal.Options.useA3 options) w)))]>
                (fs w))
             (console w)).
Proof.
  intros Hin. unfold Minimal.pdfToBooklet, mbind, Script_bind, loadFile.
  rewrite Hin. unfold getPage, getSize_of. simpl.
  destruct (getSize firstPage) as [origWidth origHeight].
  unfold sheetOf, reversedSizes.
  destruct (Minimal.Options.useA3 options); reflexivity.
Qed.

(** A run throws, and leaves the store as it found it, when the input
    is missing, is not a PDF, or has no page. *)
Lemma Main_pdfToBooklet_throws (inputPath outputPath : string)
      (options : Main.Options num) (w : World num) :
  (forall doc, fs w !! inputPath = Some (PdfFile doc) -> doc = []) ->
  exists e, Main.pdfToBooklet inputPath outputPath options w = (Thrown e, w).
Proof.
  intros Hbad.
  destruct (fs w !! inputPath) as [[doc|]|] eqn:Hin.
  - rewrite (Hbad doc eq_refl) in Hin.
    eexists. apply Main_pdfToBooklet_empty. exact Hin.
  - eexists. unfold Main.pdfToBooklet, mbind, Script_bind, loadFile.
    rewrite Hin. reflexivity.
  - eexists. unfold Main.pdfToBooklet, mbind, Script_bind, loadFile.
    rewrite Hin. reflexivity.
Qed.

Lemma Minimal_pdfToBooklet_throws (inputPath outputPath : string)
      (options : Minimal.Options) (w : World num) :
  (forall doc, fs w !! inputPath = Some (PdfFile doc) -> doc = []) ->
  exists e, Minimal.pdfToBooklet inputPath outputPath options w = (Thrown e, w).
Proof.
  intros Hbad.
  destruct (fs w !! inputPath) as [[doc|]|] eqn:Hin.
  - rewrite (Hbad doc eq_refl) in Hin.
    eexists. apply Minimal_pdfToBooklet_empty. exact Hin.
  - eexists. unfold Minimal.pdfToBooklet, mbind, Script_bind, loadFile.
    rewrite Hin. reflexivity.
  - eexists. unfold Minimal.pdfToBooklet, mbind, Script_bind, loadFile.
    rewrite Hin. reflexivity.
Qed.
End Runs.

(** ** The batch loop *)

Section Batches.
Context {num : Type} {NUM : JsNumber num}.
Variable join : string -> string -> string.
Variables inputDirectory outputDirectory : string.

(** The loop over [pre ++ post] runs [pre], and [post] only if [pre]
    returned. *)
Lemma Main_processBatch_app (options : Main.Options num)
      (pre post : list string) (w : World num) :
  Main.processBatch_for join inputDirectory outputDirectory options
                        (pre ++ post) w
  = match Main.processBatch_for join inputDirectory outputDirectory options
                                pre w with
    | (Returned _, w1) =>
        Main.processBatch_for join inputDirectory outputDirectory options
                              post w1
    | (Thrown e, w1) => (Thrown e, w1)
    end.
Proof.
  revert w. induction pre as [|file pre IH]; intro w.
  - reflexivity.
  - cbn [app Main.processBatch_for].
    set (step := if endsWith _ _ then _ else _). clearbody step.
    unfold mbind, Script_bind. destruct (step w) as [[[]|e] w1].
    + apply IH.
    + reflexivity.
Qed.

Lemma Minimal_processBatch_app (options : Minimal.Options)
      (pre post : list string) (w : World num) :
  Minimal.processBatch_for join inputDirectory outputDirectory options
                           (pre ++ post) w
  = match Minimal.processBatch_for join inputDirectory outputDirectory options
                                   pre w with
    | (Returned _, w1) =>
        Minimal.processBatch_for join inputDirectory outputDirectory options
                                 post w1
    | (Thrown e, w1) => (Thrown e, w1)
    end.
Proof.
  revert w. induction pre as [|file pre IH]; intro w.
  - reflexivity.
  - cbn [app Minimal.processBatch_for].
    set (step := if endsWith _ _ then _ else _). clearbody step.
    unfold mbind, Script_bind. destruct (step w) as [[[]|e] w1].
    + apply IH.
    + reflexivity.
Qed.

(** The batch stops at the first entry whose run throws: the store is
    the one the earlier entries left, and the console ends with the
    report of the top-level handler. *)
Lemma Main_batch_stops (options : Main.Options num)
      (pre post : list string) (file : string) (w w1 : World num) :
  Main.processBatch_for join inputDirectory outputDirectory options pre w
  = (Returned tt, w1) ->
  endsWith (toLowerCase file) ".pdf" = true ->
  (forall doc, fs w1 !! join inputDirectory file = Some (PdfFile doc) ->
               doc = []) ->
  exists e,
    Main.batchMode join inputDirectory outputDirectory options
                   (pre ++ file :: post) w
    = (Returned tt,
       mkWorld (PageSizes w1) (fs w1)
               (console w1 ++ [info ("Processing: " ++ file);
                               error "Error in batch processing:" e])).
Proof.
  intros Hpre Hpdf Hbad.
  destruct (Main_pdfToBooklet_throws
              (join inputDirectory file)
              (join outputDirectory (parse_name file ++ "-booklet.pdf"))
              options
              (mkWorld (PageSizes w1) (fs w1)
                       (console w1 ++ [info ("Processing: " ++ file)]))
              Hbad) as [e He].
  exists e.
  unfold Main.batchMode, try_catch, Main.processBatch.
  unfold mbind at 1. unfold Script_bind at 1.
  rewrite Main_processBatch_app, Hpre.
  cbn [Main.processBatch_for]. rewrite Hpdf.
  unfold mbind, Script_bind, console_info at 1. rewrite He.
  unfold console_error. cbn [PageSizes fs console].
  rewrite <- app_assoc. reflexivity.
Qed.

Lemma Minimal_batch_stops (options : Minimal.Options)
      (pre post : list string) (file : string) (w w1 : World num) :
  Minimal.processBatch_for join inputDirectory outputDirectory options pre w
  = (Returned tt, w1) ->
  endsWith (toLowerCase file) ".pdf" = true ->
  (forall doc, fs w1 !! join inputDirectory file = Some (PdfFile doc) ->
               doc = []) ->
  exists e,
    Minimal.batchMode join inputDirectory outputDirectory options
                      (pre ++ file :: post) w
    = (Returned tt,
       mkWorld (PageSizes w1) (fs w1)
               (console w1 ++ [info ("Processing: " ++ file);
                               error "Error in batch processing:" e])).
Proof.
  intros Hpre Hpdf Hbad.
  destruct (Minimal_pdfToBooklet_throws
              (join inputDirectory file)
              (join outputDirectory (parse_name file ++ "-booklet.pdf"))
              options
              (mkWorld (PageSizes w1) (fs w1)
                       (console w1 ++ [info ("Processing: " ++ file)]))
              Hbad) as [e He].
  exists e.
  unfold Minimal.batchMode, try_catch, Minimal.processBatch.
  unfold mbind at 1. unfold Script_bind at 1.
  rewrite Minimal_processBatch_app, Hpre.
  cbn [Minimal.processBatch_for]. rewrite Hpdf.
  unfold mbind, Script_bind, console_info at 1. rewrite He.
  unfold console_error. cbn [PageSizes fs console].
  rewrite <- app_assoc. reflexivity.
Qed.
End Batches.

(** ** Page-count normalisation and sheet enumeration *)

Lemma spec_indices_In (finalPageCount index : Z) :
  In index (spec_indices finalPageCount)
  <-> 0 <= index < finalPageCount / 2 /\ Z.even index = true.
Proof.
  unfold spec_indices. rewrite filter_In, in_map_iff. split.
  - intros [(k & <- & Hk) Heven]. apply in_seq in Hk. split; [lia | assumption].
  - intros [Hrange Heven]. split; [|assumption].
    exists (Z.to_nat index). rewrite in_seq. lia.
Qed.

(** C2: for every page count of at least 1, [finalPageCount] is a multiple
    of 4, is at least the page count, and exceeds it by 0, 1, 2 or 3. *)
Theorem finalPageCount_multiple_of_4 (pageCount : Z) :
  1 <= pageCount ->
  (exists k, finalPageCount pageCount = 4 * k)
  /\ finalPageCount pageCount mod 4 = 0
  /\ finalPageCount pageCount >= pageCount
  /\ (finalPageCount pageCount - pageCount = 0
      \/ finalPageCount pageCount - pageCount = 1
      \/ finalPageCount pageCount - pageCount = 2
      \/ finalPageCount pageCount - pageCount = 3).
Proof.
  intros _. rewrite finalPageCount_div.
  pose proof (Z.div_mod (pageCount + 3) 4 ltac:(lia)) as Hd.
  pose proof (Z.mod_pos_bound (pageCount + 3) 4 ltac:(lia)) as Hb.
  split; [exists ((pageCount + 3) / 4); lia|].
  split; [apply Z.mod_mul; lia|].
  lia.
Qed.

Lemma finalPageCount_multiple_of_4_witness :
  1 <= 5
  /\ (exists k, finalPageCount 5 = 4 * k)
  /\ finalPageCount 5 mod 4 = 0
  /\ finalPageCount 5 >= 5
  /\ (finalPageCount 5 - 5 = 0 \/ finalPageCount 5 - 5 = 1
      \/ finalPageCount 5 - 5 = 2 \/ finalPageCount 5 - 5 = 3).
Proof. split; [lia | apply (finalPageCount_multiple_of_4 5); lia]. Defined.

(** C1: for every page count of at least 1, the engine goes through
    index = 0, 2, 4, ... below finalPageCount / 2 and, for each index,
    appends first the back side (left slot: logical page
    finalPageCount - 1 - index, right slot: logical page index) and then
    the front side (left slot: index + 1, right slot:
    finalPageCount - 2 - index), in that order.  Both scripts do so. *)
Theorem imposition_order {num : Type} {NUM : JsNumber num}
        (options : Main.Options num) (pageCount : Z)
        (origWidth origHeight outputWidth outputHeight : num) :
  1 <= pageCount ->
  let final := finalPageCount pageCount in
  (forall index, In index (spec_indices final)
                 <-> 0 <= index < final / 2 /\ Z.even index = true)
  /\ Main.impose options pageCount origWidth origHeight outputWidth outputHeight
     = flat_map
         (fun index =>
            [Main.side options pageCount origWidth origHeight
                       outputWidth outputHeight (final - 1 - index) index;
             Main.side options pageCount origWidth origHeight
                       outputWidth outputHeight (index + 1) (final - 2 - index)])
         (spec_indices final)
  /\ Minimal.impose pageCount origWidth origHeight outputWidth outputHeight
     = flat_map
         (fun index =>
            [Minimal.side pageCount origWidth origHeight
                          outputWidth outputHeight (final - 1 - index) index;
             Minimal.side pageCount origWidth origHeight
                          outputWidth outputHeight (index + 1) (final - 2 - index)])
         (spec_indices final).
Proof.
  intros _ final. split; [|split].
  - intro index. apply spec_indices_In.
  - apply Main_impose_sides.
  - apply Minimal_impose_sides.
Qed.

Lemma imposition_order_witness :
  1 <= 5
  /\ Main.impose double_options 5 (fst (getSize a4_page)) (snd (getSize a4_page))
                 (fst a4_sheet) (snd a4_sheet)
     = flat_map
         (fun index =>
            [Main.side double_options 5
                       (fst (getSize a4_page)) (snd (getSize a4_page))
                       (fst a4_sheet) (snd a4_sheet) (8 - 1 - index) index;
             Main.side double_options 5
                       (fst (getSize a4_page)) (snd (getSize a4_page))
                       (fst a4_sheet) (snd a4_sheet) (index + 1) (8 - 2 - index)])
         [0; 2].
Proof.
  split; [lia|].
  apply (imposition_order double_options 5
           (fst (getSize a4_page)) (snd (getSize a4_page))
           (fst a4_sheet) (snd a4_sheet)).
  lia.
Defined.

(** ** Blank pages *)

(** C4: for every page count of at least 1 and every configuration, no
    placement in the output names a source page at or beyond the page
    count, and a slot whose logical page is at or beyond the page count
    gets no placement object and nothing is drawn for it.  Both scripts. *)
Theorem blank_pages_never_placed {num : Type} {NUM : JsNumber num}
        (options : Main.Options num) (pageCount : Z)
        (origWidth origHeight outputWidth outputHeight : num) :
  1 <= pageCount ->
  Forall (fun pg => Forall (fun p => page p < pageCount) (drawn pg))
         (Main.impose options pageCount origWidth origHeight
                      outputWidth outputHeight)
  /\ Forall (fun pg => Forall (fun p => page p < pageCount) (drawn pg))
            (Minimal.impose pageCount origWidth origHeight
                            outputWidth outputHeight)
  /\ (forall pageNumber x0 y0 handle outputPdf,
        pageCount <= pageNumber ->
        Main.addPageToOutput options pageCount origWidth origHeight
                             outputWidth outputHeight pageNumber x0 y0 = None
        /\ Main.drawSlot options outputHeight handle
             (Main.addPageToOutput options pageCount origWidth origHeight
                                   outputWidth outputHeight pageNumber x0 y0)
             outputPdf = outputPdf)
  /\ (forall pageNumber x0 handle outputPdf,
        pageCount <= pageNumber ->
        Minimal.addPageToOutput pageCount origWidth origHeight
                                outputWidth outputHeight pageNumber x0 = None
        /\ Minimal.drawSlot handle
             (Minimal.addPageToOutput pageCount origWidth origHeight
                                      outputWidth outputHeight pageNumber x0)
             outputPdf = outputPdf).
Proof.
  intros _. repeat split.
  - apply List.Forall_forall. intros pg Hpg.
    apply List.Forall_forall. intros p Hp.
    destruct (Main_placement_origin _ _ _ _ _ _ pg p Hpg Hp)
      as (n & x0 & bottom & Hb & Hor).
    apply Main_addPageToOutput_Some in Hb. destruct Hb as [Hlt ->].
    destruct Hor as [-> | ->]; exact Hlt.
  - apply List.Forall_forall. intros pg Hpg.
    apply List.Forall_forall. intros p Hp.
    destruct (Minimal_placement_origin _ _ _ _ _ pg p Hpg Hp)
      as (n & x0 & Hb).
    unfold Minimal.addPageToOutput in Hb.
    destruct (Z.ltb_spec n pageCount); [|discriminate].
    injection Hb as <-. assumption.
  - unfold Main.addPageToOutput.
    destruct (Z.ltb_spec pageNumber pageCount); [lia | reflexivity].
  - unfold Main.addPageToOutput.
    destruct (Z.ltb_spec pageNumber pageCount); [lia | reflexivity].
  - unfold Minimal.addPageToOutput.
    destruct (Z.ltb_spec pageNumber pageCount); [lia | reflexivity].
  - unfold Minimal.addPageToOutput.
    destruct (Z.ltb_spec pageNumber pageCount); [lia | reflexivity].
Qed.

Lemma blank_pages_never_placed_witness :
  1 <= 5
  /\ Forall (fun pg => Forall (fun p => page p < 5) (drawn pg))
            (Main.impose double_options 5
                         (fst (getSize a4_page)) (snd (getSize a4_page))
                         (fst a4_sheet) (snd a4_sheet)).
Proof.
  split; [lia|].
  apply (blank_pages_never_placed double_options 5
           (fst (getSize a4_page)) (snd (getSize a4_page))
           (fst a4_sheet) (snd a4_sheet)).
  lia.
Defined.

(** ** Number and size of the output pages *)

Lemma length_two_per_index {A : Type} (f g : Z -> A) (l : list Z) :
  length (flat_map (fun index => [f index; g index]) l) = (2 * length l)%nat.
Proof. induction l as [|i l IH]; simpl; lia. Qed.

Lemma spec_indices_length (pageCount : Z) :
  1 <= pageCount ->
  2 * Z.of_nat (length (spec_indices (finalPageCount pageCount)))
  = finalPageCount pageCount / 2.
Proof.
  intro Hpos. rewrite spec_indices_evens, finalPageCount_half.
  unfold evens_from. rewrite length_map, length_seq.
  assert (0 <= (pageCount + 3) / 4) by (apply Z.div_pos; lia). lia.
Qed.

Lemma Main_impose_length {num : Type} {NUM : JsNumber num}
      (options : Main.Options num) (pageCount : Z)
      (origWidth origHeight outputWidth outputHeight : num) :
  1 <= pageCount ->
  Z.of_nat (length (Main.impose options pageCount origWidth origHeight
                                outputWidth outputHeight))
  = finalPageCount pageCount / 2.
Proof.
  intro Hpos. rewrite Main_impose_sides, length_two_per_index.
  rewrite <- spec_indices_length by assumption. lia.
Qed.

Lemma Minimal_impose_length {num : Type} {NUM : JsNumber num}
      (pageCount : Z) (origWidth origHeight outputWidth outputHeight : num) :
  1 <= pageCount ->
  Z.of_nat (length (Minimal.impose pageCount origWidth origHeight
                                   outputWidth outputHeight))
  = finalPageCount pageCount / 2.
Proof.
  intro Hpos. rewrite Minimal_impose_sides, length_two_per_index.
  rewrite <- spec_indices_length by assumption. lia.
Qed.

Lemma Main_impose_sizes {num : Type} {NUM : JsNumber num}
      (options : Main.Options num) (pageCount : Z)
      (origWidth origHeight outputWidth outputHeight : num) :
  Forall (fun pg => getSize pg = (outputWidth, outputHeight))
         (Main.impose options pageCount origWidth origHeight
                      outputWidth outputHeight).
Proof.
  apply List.Forall_forall. intros pg Hpg.
  destruct (Main_impose_In _ _ _ _ _ _ pg Hpg) as (l & r & ->). reflexivity.
Qed.

Lemma Minimal_impose_sizes {num : Type} {NUM : JsNumber num}
      (pageCount : Z) (origWidth origHeight outputWidth outputHeight : num) :
  Forall (fun pg => getSize pg = (outputWidth, outputHeight))
         (Minimal.impose pageCount origWidth origHeight
                         outputWidth outputHeight).
Proof.
  apply List.Forall_forall. intros pg Hpg.
  destruct (Minimal_impose_In _ _ _ _ _ pg Hpg) as (l & r & ->). reflexivity.
Qed.

(** C10: for every page count of at least 1 and every configuration
    (double print or not, either sheet preset), the document that the
    loop builds has exactly finalPageCount / 2 = 2 * ceil(pageCount / 4)
    pages, each of size outputWidth by outputHeight: the options do not
    change how many sides there are; and whenever a run returns, that is
    the document it has written.  Both scripts. *)
Theorem output_has_half_final_sides {num : Type} {NUM : JsNumber num}
        (inputPath outputPath : string)
        (options : Main.Options num) (minimal_options : Minimal.Options)
        (w : World num) (doc : PDFDocument num) :
  fs w !! inputPath = Some (PdfFile doc) ->
  1 <= getPageCount doc ->
  let pageCount := getPageCount doc in
  let half_final_sides (size : num * num) (outputPdf : PDFDocument num) :=
    Z.of_nat (length outputPdf) = finalPageCount pageCount / 2
    /\ Forall (fun pg => getSize pg = size) outputPdf in
  finalPageCount pageCount / 2 = 2 * Qceiling (inject_Z pageCount / 4)
  /\ (forall (any_options : Main.Options num)
             (origWidth origHeight outputWidth outputHeight : num),
         half_final_sides
           (outputWidth, outputHeight)
           (Main.impose any_options pageCount origWidth origHeight
                        outputWidth outputHeight)
         /\ half_final_sides
              (outputWidth, outputHeight)
              (Minimal.impose pageCount origWidth origHeight
                              outputWidth outputHeight))
  /\ (forall w' : World num,
         Main.pdfToBooklet inputPath outputPath options w = (Returned tt, w') ->
         exists outputPdf : PDFDocument num,
           fs w' !! outputPath = Some (PdfFile outputPdf)
           /\ half_final_sides (sheetOf (Main.Options.useA3 options) w)
                               outputPdf)
  /\ (forall w' : World num,
         Minimal.pdfToBooklet inputPath outputPath minimal_options w
         = (Returned tt, w') ->
         exists outputPdf : PDFDocument num,
           fs w' !! outputPath = Some (PdfFile outputPdf)
           /\ half_final_sides
                (sheetOf (Minimal.Options.useA3 minimal_options) w)
                outputPdf).
Proof.
  intros Hin Hpos pageCount half_final_sides. subst half_final_sides.
  cbv beta. split; [|split; [|split]].
  - unfold finalPageCount.
    replace (Qceiling (inject_Z pageCount / 4) * 4)
      with (2 * Qceiling (inject_Z pageCount / 4) * 2) by lia.
    apply Z.div_mul. lia.
  - intros any_options origWidth origHeight outputWidth outputHeight.
    repeat split.
    + apply Main_impose_length. exact Hpos.
    + apply Main_impose_sizes.
    + apply Minimal_impose_length. exact Hpos.
    + apply Minimal_impose_sizes.
  - intros w' Hrun.
    destruct doc as [|firstPage rest];
      [unfold getPageCount in Hpos; simpl in Hpos; lia|].
    rewrite (Main_pdfToBooklet_returns _ _ _ _ _ _ Hin) in Hrun.
    destruct (sheetOf _ w) as [outputWidth outputHeight].
    injection Hrun as <-. cbn [fs fst snd].
    eexists. split; [apply lookup_insert_eq|]. split.
    + apply Main_impose_length. exact Hpos.
    + apply Main_impose_sizes.
  - intros w' Hrun.
    destruct doc as [|firstPage rest];
      [unfold getPageCount in Hpos; simpl in Hpos; lia|].
    rewrite (Minimal_pdfToBooklet_returns _ _ _ _ _ _ Hin) in Hrun.
    destruct (sheetOf _ w) as [outputWidth outputHeight].
    injection Hrun as <-. cbn [fs fst snd].
    eexists. split; [apply lookup_insert_eq|]. split.
    + apply Minimal_impose_length. exact Hpos.
    + apply Minimal_impose_sizes.
Qed.

Lemma output_has_half_final_sides_witness :
  fs sample_world !! "in/a.pdf" = Some (PdfFile five_pages)
  /\ 1 <= getPageCount five_pages
  /\ exists (outputPdf : PDFDocument Q) (w' : World Q),
      Main.pdfToBooklet "in/a.pdf" "out/a-booklet.pdf" double_options
                        sample_world = (Returned tt, w')
      /\ fs w' !! "out/a-booklet.pdf" = Some (PdfFile outputPdf)
      /\ Z.of_nat (length outputPdf) = finalPageCount 5 / 2
      /\ Forall (fun pg => getSize pg = a4_sheet) outputPdf.
Proof.
  assert (H1 : fs sample_world !! "in/a.pdf" = Some (PdfFile five_pages))
    by reflexivity.
  assert (H2 : 1 <= getPageCount five_pages) by (vm_compute; discriminate).
  split; [exact H1 | split; [exact H2 |]].
  pose (w' := snd (Main.pdfToBooklet "in/a.pdf" "out/a-booklet.pdf"
                                     double_options sample_world)).
  assert (Hrun : Main.pdfToBooklet "in/a.pdf" "out/a-booklet.pdf"
                                   double_options sample_world
                 = (Returned tt, w')) by reflexivity.
  destruct (output_has_half_final_sides
              "in/a.pdf" "out/a-booklet.pdf" double_options
              (Minimal.Options.mk false) sample_world five_pages H1 H2)
    as (_ & _ & HM & _).
  destruct (HM w' Hrun) as (outputPdf & Hout & Hlen & Hsize).
  exists outputPdf, w'. repeat split; assumption.
Defined.

(** ** Scale and placement geometry *)

(** Over the rationals, [options.padding || 0] is [options.padding]. *)
Lemma Main_padding_Q (options : Main.Options Q) :
  (Main.padding options == Main.Options.padding options)%Q.
Proof.
  unfold Main.padding. cbn [ntruthy QNumber].
  destruct (Qeq_bool (Main.Options.padding options) 0) eqn:E; cbn [negb].
  - apply Qeq_bool_eq in E. symmetry. exact E.
  - reflexivity.
Qed.

(** C3: whatever the first-page size, the padding and the double-print
    setting, every placed page has width origWidth * scale and height
    origHeight * scale, where scale = min(scaleX, scaleY),
    scaleX = (outputWidth / 2 - padding * 2) / origWidth, and scaleY is
    (outputHeight / 2 - padding * 2) / origHeight under double print and
    (outputHeight - padding * 2) / origHeight otherwise.  This holds for
    every arithmetic; over the rationals the padding used is the padding
    given in the options. *)
Theorem scale_is_min_of_fits :
  (forall (num : Type) (NUM : JsNumber num)
          (options : Main.Options num) (pageCount : Z)
          (origWidth origHeight outputWidth outputHeight : num),
      let padding := Main.padding options in
      let scaleX :=
        ((outputWidth / ntwo - padding * ntwo) / origWidth)%js in
      let scaleY :=
        if Main.Options.double options
        then ((outputHeight / ntwo - padding * ntwo) / origHeight)%js
        else ((outputHeight - padding * ntwo) / origHeight)%js in
      let scale := nmin scaleX scaleY in
      Main.scale options origWidth origHeight outputWidth outputHeight = scale
      /\ Forall
           (fun pg =>
              Forall (fun p => width p = (origWidth * scale)%js
                               /\ height p = (origHeight * scale)%js)
                     (drawn pg))
           (Main.impose options pageCount origWidth origHeight
                        outputWidth outputHeight))
  /\ (forall options : Main.Options Q,
         (Main.padding options == Main.Options.padding options)%Q).
Proof.
  split; [|exact Main_padding_Q].
  intros num NUM options pageCount origWidth origHeight outputWidth outputHeight.
  cbv zeta. split; [reflexivity|].
  apply List.Forall_forall. intros pg Hpg.
  apply List.Forall_forall. intros p Hp.
  destruct (Main_placement_origin _ _ _ _ _ _ pg p Hpg Hp)
    as (n & x0 & bottom & Hb & Hor).
  apply Main_addPageToOutput_Some in Hb. destruct Hb as [_ ->].
  destruct Hor as [-> | ->]; split; reflexivity.
Qed.

Section Geometry.
Context {num : Type} {NUM : JsNumber num}.
Variable options : Main.Options num.
Variable pageCount : Z.
Variables origWidth origHeight outputWidth outputHeight : num.

End Geometry.


(** ** Failures *)

(** C6, as stated, fails: of the three entries a.pdf, b.pdf and c.pdf,
    where only b.pdf is not a PDF, the batch writes the output of a.pdf
    and stops; the output of c.pdf is never written. *)
Lemma batch_aborts_on_corrupt_file :
  ~ batch_survives_failure slash_join "in" "out" plain_options
      ["a.pdf"; "b.pdf"; "c.pdf"] sample_world.
Proof.
  intro Hclaim.
  assert (Hc : is_Some
                 (fs (snd (Main.batchMode slash_join "in" "out" plain_options
                                          ["a.pdf"; "b.pdf"; "c.pdf"]
                                          sample_world))
                    !! slash_join "out" (parse_name "c.pdf" ++ "-booklet.pdf")%string)).
  { apply (Hclaim "c.pdf" five_pages).
    - simpl. auto.
    - reflexivity.
    - reflexivity.
    - discriminate. }
  destruct Hc as [f Hf]. vm_compute in Hf. discriminate Hf.
Qed.

(** C6, amended: the batch stops at the first entry whose run throws (the
    input is missing, is not a PDF, or has no page).  The entries before it
    were processed, the store is the one they left, no later entry is
    processed, and the console ends with the line for the failing entry
    and one report from the top-level handler.  Both scripts. *)
Theorem batch_stops_at_first_failure {num : Type} {NUM : JsNumber num}
        (join : string -> string -> string)
        (inputDirectory outputDirectory : string)
        (options : Main.Options num) (minimal_options : Minimal.Options)
        (pre post : list string) (file : string) (w : World num) :
  endsWith (toLowerCase file) ".pdf" = true ->
  (forall w1,
      Main.processBatch join inputDirectory outputDirectory options pre w
      = (Returned tt, w1) ->
      (forall doc, fs w1 !! join inputDirectory file = Some (PdfFile doc) ->
                   doc = []) ->
      exists e,
        Main.batchMode join inputDirectory outputDirectory options
                       (pre ++ file :: post) w
        = (Returned tt,
           mkWorld (PageSizes w1) (fs w1)
                   (console w1 ++ [info ("Processing: " ++ file);
                                   error "Error in batch processing:" e])))
  /\ (forall w1,
         Minimal.processBatch join inputDirectory outputDirectory
                              minimal_options pre w
         = (Returned tt, w1) ->
         (forall doc, fs w1 !! join inputDirectory file = Some (PdfFile doc) ->
                      doc = []) ->
         exists e,
           Minimal.batchMode join inputDirectory outputDirectory
                             minimal_options (pre ++ file :: post) w
           = (Returned tt,
              mkWorld (PageSizes w1) (fs w1)
                      (console w1 ++ [info ("Processing: " ++ file);
                                      error "Error in batch processing:" e]))).
Proof.
  intro Hpdf. split; intros w1 Hpre Hbad.
  - apply Main_batch_stops; assumption.
  - apply Minimal_batch_stops; assumption.
Qed.

Lemma batch_stops_at_first_failure_witness :
  endsWith (toLowerCase "b.pdf") ".pdf" = true
  /\ exists e w1,
      Main.processBatch slash_join "in" "out" plain_options ["a.pdf"]
                        sample_world = (Returned tt, w1)
      /\ fs w1 !! "out/c-booklet.pdf" = None
      /\ Main.batchMode slash_join "in" "out" plain_options
                        (["a.pdf"] ++ "b.pdf" :: ["c.pdf"]) sample_world
         = (Returned tt,
            mkWorld (PageSizes w1) (fs w1)
                    (console w1 ++ [info "Processing: b.pdf";
                                    error "Error in batch processing:" e])).
Proof.
  assert (H1 : endsWith (toLowerCase "b.pdf") ".pdf" = true) by reflexivity.
  split; [exact H1|].
  destruct (batch_stops_at_first_failure
              slash_join "in" "out" plain_options (Minimal.Options.mk false)
              ["a.pdf"] ["c.pdf"] "b.pdf" sample_world H1) as [HM _].
  pose (w1 := snd (Main.processBatch slash_join "in" "out" plain_options
                                     ["a.pdf"] sample_world)).
  assert (Hpre : Main.processBatch slash_join "in" "out" plain_options
                                   ["a.pdf"] sample_world = (Returned tt, w1))
    by reflexivity.
  assert (Hbad : forall doc,
             fs w1 !! slash_join "in" "b.pdf" = Some (PdfFile doc) -> doc = []).
  { intros doc Hdoc. vm_compute in Hdoc. discriminate Hdoc. }
  destruct (HM w1 Hpre Hbad) as [e He].
  exists e, w1. split; [exact Hpre | split; [reflexivity | exact He]].
Defined.

(** C7, as stated, fails: for a one-page document whose first page has
    width -100, the run does not throw; it returns and writes two sides,
    the first of which carries a placement of negative height. *)
Lemma negative_width_is_not_rejected :
  ~ rejects_malformed "in.pdf" "out.pdf" plain_options negative_width_world
  /\ exists (w' : World Q) (back front : PDFPage Q) (p : Placement Q),
      Main.pdfToBooklet "in.pdf" "out.pdf" plain_options negative_width_world
      = (Returned tt, w')
      /\ fs w' !! "out.pdf" = Some (PdfFile [back; front])
      /\ drawn back = [p]
      /\ (height p < 0)%Q.
Proof.
  split.
  - intro Hclaim.
    destruct (Hclaim [mkPage ((-100) # 1, 200 # 1)%Q []]) as [e He].
    + reflexivity.
    + left. vm_compute. discriminate.
    + vm_compute in He. discriminate He.
  - eexists. eexists. eexists. eexists.
    split; [vm_compute; reflexivity|].
    split; [vm_compute; reflexivity|].
    split; [reflexivity|].
    vm_compute. reflexivity.
Qed.

(** C7, amended: a document without pages makes the run throw before a
    sheet is added, a placement drawn, a preset reversed or a file
    written, because reading the size of its missing first page throws;
    the width and height of the first page are never checked: whenever the
    run returns, whatever their sign, it has written finalPageCount / 2
    sides, at least 2, computed by the loop from that width and height. *)
Theorem only_empty_documents_are_rejected {num : Type} {NUM : JsNumber num}
        (inputPath outputPath : string) (options : Main.Options num)
        (w : World num) (doc : PDFDocument num) :
  fs w !! inputPath = Some (PdfFile doc) ->
  match doc with
  | [] =>
      Main.pdfToBooklet inputPath outputPath options w
      = (Thrown (TypeError "getSize"), w)
  | firstPage :: _ =>
      forall w' : World num,
        Main.pdfToBooklet inputPath outputPath options w = (Returned tt, w') ->
        exists outputPdf : PDFDocument num,
          fs w' !! outputPath = Some (PdfFile outputPdf)
          /\ outputPdf
             = Main.impose options (getPageCount doc)
                           (fst (getSize firstPage)) (snd (getSize firstPage))
                           (fst (sheetOf (Main.Options.useA3 options) w))
                           (snd (sheetOf (Main.Options.useA3 options) w))
          /\ Z.of_nat (length outputPdf) = finalPageCount (getPageCount doc) / 2
          /\ 2 <= Z.of_nat (length outputPdf)
  end.
Proof.
  intro Hin. destruct doc as [|firstPage rest].
  - apply Main_pdfToBooklet_empty. exact Hin.
  - intros w' Hrun.
    rewrite (Main_pdfToBooklet_returns _ _ _ _ _ _ Hin) in Hrun.
    injection Hrun as <-. cbn [fs].
    eexists. split; [apply lookup_insert_eq|]. split; [reflexivity|].
    assert (Hpos : 1 <= getPageCount (firstPage :: rest))
      by (unfold getPageCount; simpl; lia).
    split.
    + apply Main_impose_length. exact Hpos.
    + rewrite Main_impose_length, finalPageCount_half by exact Hpos.
      assert (1 <= (getPageCount (firstPage :: rest) + 3) / 4)
        by (apply Z.div_le_lower_bound; lia).
      lia.
Qed.

Lemma only_empty_documents_are_rejected_witness :
  fs negative_width_world !! "in.pdf"
  = Some (PdfFile [mkPage ((-100) # 1, 200 # 1)%Q []])
  /\ exists (w' : World Q) (outputPdf : PDFDocument Q),
      Main.pdfToBooklet "in.pdf" "out.pdf" double_options negative_width_world
      = (Returned tt, w')
      /\ fs w' !! "out.pdf" = Some (PdfFile outputPdf)
      /\ 2 <= Z.of_nat (length outputPdf).
Proof.
  assert (H1 : fs negative_width_world !! "in.pdf"
               = Some (PdfFile [mkPage ((-100) # 1, 200 # 1)%Q []]))
    by reflexivity.
  split; [exact H1|].
  pose (w' := snd (Main.pdfToBooklet "in.pdf" "out.pdf" double_options
                                     negative_width_world)).
  assert (Hrun : Main.pdfToBooklet "in.pdf" "out.pdf" double_options
                                   negative_width_world
                 = (Returned tt, w')) by reflexivity.
  destruct (only_empty_documents_are_rejected
              "in.pdf" "out.pdf" double_options negative_width_world _ H1
              w' Hrun)
    as (outputPdf & Hout & _ & _ & Hlen).
  exists w', outputPdf. split; [exact Hrun | split; [exact Hout | exact Hlen]].
Defined.

(** ** Sign of the scale *)

Section RationalScale.
Local Open Scope Q_scope.

Lemma Main_scaleX_Q (options : Main.Options Q) (origWidth outputWidth : Q) :
  Main.scaleX options origWidth outputWidth
  == (outputWidth / 2 - Main.Options.padding options * 2) / origWidth.
Proof.
  unfold Main.scaleX. cbn [nsub nmul ndiv ntwo QNumber].
  rewrite Main_padding_Q. reflexivity.
Qed.

Lemma Main_scaleY_Q (options : Main.Options Q) (origHeight outputHeight : Q) :
  Main.scaleY options origHeight outputHeight
  == ((if Main.Options.double options then outputHeight / 2 else outputHeight)
      - Main.Options.padding options * 2) / origHeight.
Proof.
  unfold Main.scaleY. cbn [nsub nmul ndiv ntwo QNumber].
  destruct (Main.Options.double options); rewrite Main_padding_Q; reflexivity.
Qed.

Lemma Main_scale_Q (options : Main.Options Q)
      (origWidth origHeight outputWidth outputHeight : Q) :
  Main.scale options origWidth origHeight outputWidth outputHeight
  == Qmin ((outputWidth / 2 - Main.Options.padding options * 2) / origWidth)
          (((if Main.Options.double options
             then outputHeight / 2 else outputHeight)
            - Main.Options.padding options * 2) / origHeight).
Proof.
  unfold Main.scale. cbn [nmin QNumber].
  rewrite Main_scaleX_Q, Main_scaleY_Q. reflexivity.
Qed.

Lemma Qdiv_pos (a b : Q) : 0 < a -> 0 < b -> 0 < a / b.
Proof.
  intros Ha Hb. apply Qlt_shift_div_l; [exact Hb|]. lra.
Qed.
End RationalScale.

(** C8, as stated, fails: on the landscape A4 sheet with a portrait A4
    page, a padding of 250 is below half of the sheet width and below half
    of the sheet height, and the scale is negative. *)
Lemma scale_negative_below_half :
  ~ scale_positive_below_half wide_padding_options
      (fst (getSize a4_page)) (snd (getSize a4_page))
      (fst a4_sheet) (snd a4_sheet).
Proof.
  intro Hclaim.
  assert (Hpos : (0 < Main.scale wide_padding_options
                         (fst (getSize a4_page)) (snd (getSize a4_page))
                         (fst a4_sheet) (snd a4_sheet))%Q).
  { apply Hclaim; vm_compute; first [reflexivity | discriminate]. }
  vm_compute in Hpos. discriminate Hpos.
Qed.

(** C8, amended: for origWidth > 0, origHeight > 0 and padding >= 0 with
    padding * 2 < outputWidth / 2 and padding * 2 < outputHeight
    (outputHeight / 2 under double print), the scale is strictly positive;
    and the scale is a function of the numbers it is computed from: equal
    inputs give an equal scale. *)
Theorem scale_positive_within_slot (options : Main.Options Q)
        (origWidth origHeight outputWidth outputHeight : Q) :
  (0 < origWidth)%Q ->
  (0 < origHeight)%Q ->
  (0 <= Main.Options.padding options)%Q ->
  (Main.Options.padding options * 2 < outputWidth / 2)%Q ->
  (Main.Options.padding options * 2
   < if Main.Options.double options then outputHeight / 2 else outputHeight)%Q ->
  (0 < Main.scale options origWidth origHeight outputWidth outputHeight)%Q
  /\ forall (options' : Main.Options Q)
            (origWidth' origHeight' outputWidth' outputHeight' : Q),
      (Main.Options.padding options' == Main.Options.padding options)%Q ->
      Main.Options.double options' = Main.Options.double options ->
      (origWidth' == origWidth)%Q ->
      (origHeight' == origHeight)%Q ->
      (outputWidth' == outputWidth)%Q ->
      (outputHeight' == outputHeight)%Q ->
      (Main.scale options' origWidth' origHeight' outputWidth' outputHeight'
       == Main.scale options origWidth origHeight outputWidth outputHeight)%Q.
Proof.
  intros Hw Hh _ Hx Hy. split.
  - rewrite Main_scale_Q. apply Q.min_glb_lt; apply Qdiv_pos; trivial; lra.
  - intros options' origWidth' origHeight' outputWidth' outputHeight'
           Hp Hd Hw' Hh' HW HH.
    rewrite !Main_scale_Q, Hd, Hp, Hw', Hh', HW.
    destruct (Main.Options.double options); rewrite HH; reflexivity.
Qed.

Lemma scale_positive_within_slot_witness :
  (0 < Main.scale double_options
         (fst (getSize a4_page)) (snd (getSize a4_page))
         (fst a4_sheet) (snd a4_sheet))%Q.
Proof.
  apply (scale_positive_within_slot double_options
           (fst (getSize a4_page)) (snd (getSize a4_page))
           (fst a4_sheet) (snd a4_sheet));
    vm_compute; first [reflexivity | discriminate].
Defined.

(** ** The two scale formulas *)

(** C9, as stated, fails: with padding 0 and no double print, the vertical
    term of the full script is the vertical term of the minimal script. *)
Lemma vertical_terms_agree_without_double :
  ~ generalizes_horizontally_only plain_options
      (fst (getSize a4_page)) (snd (getSize a4_page))
      (fst a4_sheet) (snd a4_sheet).
Proof.
  intro Hclaim. destruct Hclaim as [_ Hdiffer].
  - reflexivity.
  - reflexivity.
  - reflexivity.
  - apply Hdiffer; [reflexivity | vm_compute; reflexivity].
Qed.

(** C9, amended: for origWidth, origHeight > 0 and padding = 0, the
    horizontal term of the full script equals that of the minimal script,
    outputWidth / (2 * origWidth); without double print the vertical term
    also equals that of the minimal script, outputHeight / origHeight;
    under double print it is half of it, and so differs from it whenever
    outputHeight is not 0. *)
Theorem padding_zero_reduces_to_minimal (options : Main.Options Q)
        (origWidth origHeight outputWidth outputHeight : Q) :
  (0 < origWidth)%Q ->
  (0 < origHeight)%Q ->
  (Main.Options.padding options == 0)%Q ->
  (Main.scaleX options origWidth outputWidth
   == Minimal.scaleX origWidth outputWidth)%Q
  /\ (Minimal.scaleX origWidth outputWidth
      == outputWidth / (2 * origWidth))%Q
  /\ (Minimal.scaleY origHeight outputHeight == outputHeight / origHeight)%Q
  /\ (Main.Options.double options = false ->
      (Main.scaleY options origHeight outputHeight
       == Minimal.scaleY origHeight outputHeight)%Q)
  /\ (Main.Options.double options = true ->
      (Main.scaleY options origHeight outputHeight
       == Minimal.scaleY origHeight outputHeight / 2)%Q
      /\ (~ outputHeight == 0 ->
          ~ Main.scaleY options origHeight outputHeight
            == Minimal.scaleY origHeight outputHeight)%Q).
Proof.
  intros Hw Hh Hp.
  assert (Hw0 : ~ (origWidth == 0)%Q) by lra.
  assert (Hh0 : ~ (origHeight == 0)%Q) by lra.
  rewrite Main_scaleX_Q, Main_scaleY_Q, Hp.
  unfold Minimal.scaleX, Minimal.scaleY. cbn [nmul ndiv ntwo QNumber].
  split; [field; exact Hw0|].
  split; [reflexivity|].
  split; [reflexivity|].
  split.
  - intros ->. field. exact Hh0.
  - intros ->. split; [field; exact Hh0|].
    intros HH Heq. apply HH.
    assert (E : (origHeight * ((outputHeight / 2 - 0 * 2) / origHeight)
                 == origHeight * (outputHeight / origHeight))%Q)
      by (rewrite Heq; reflexivity).
    rewrite !Qmult_div_r in E by exact Hh0.
    unfold Qdiv in E. change (/ 2)%Q with (1 # 2)%Q in E. lra.
Qed.

Lemma padding_zero_reduces_to_minimal_witness :
  (Main.scaleX plain_options (fst (getSize a4_page)) (fst a4_sheet)
   == Minimal.scaleX (fst (getSize a4_page)) (fst a4_sheet))%Q
  /\ (Main.scaleY plain_options (snd (getSize a4_page)) (snd a4_sheet)
      == Minimal.scaleY (snd (getSize a4_page)) (snd a4_sheet))%Q.
Proof.
  destruct (padding_zero_reduces_to_minimal plain_options
              (fst (getSize a4_page)) (snd (getSize a4_page))
              (fst a4_sheet) (snd a4_sheet))
    as (HX & _ & _ & HY & _);
    [reflexivity | reflexivity | reflexivity |].
  split; [exact HX | apply HY; reflexivity].
Defined.

(** ** A remark on the sheet presets

    [PageSizes.A4.reverse()] reverses the array of pdf-lib in place.  A run
    therefore leaves the selected preset reversed, and the next run in the
    same process (the next entry of a batch) reverses it back: it imposes
    on the sheet in the orientation that pdf-lib ships. *)
Lemma sheet_orientation_alternates {num : Type} {NUM : JsNumber num}
      (inputPath outputPath : string) (options : Main.Options num)
      (w : World num) (firstPage : PDFPage num) (rest : PDFDocument num) :
  fs w !! inputPath = Some (PdfFile (firstPage :: rest)) ->
  let w' := snd (Main.pdfToBooklet inputPath outputPath options w) in
  sheetOf (Main.Options.useA3 options) w
  = reverse (if Main.Options.useA3 options
             then A3 (PageSizes w) else A4 (PageSizes w))
  /\ sheetOf (Main.Options.useA3 options) w'
     = (if Main.Options.useA3 options then A3 (PageSizes w) else A4 (PageSizes w)).
Proof.
  intros Hin w'. split; [reflexivity|].
  subst w'. rewrite (Main_pdfToBooklet_returns _ _ _ _ _ _ Hin).
  unfold sheetOf, reversedSizes, reverse. cbn [snd PageSizes].
  destruct (Main.Options.useA3 options); cbn [A3 A4 fst snd];
    match goal with |- _ = ?a => destruct a; reflexivity end.
Qed.


(** ** The scripts on sample inputs *)

(** Four pages: four sides, each with both slots filled. *)
Example impose_four_pages :
  map (fun pg => map page (drawn pg))
      (Main.impose plain_options 4 (fst (getSize a4_page)) (snd (getSize a4_page))
                   (fst a4_sheet) (snd a4_sheet))
  = [[3; 0]; [1; 2]].
Proof. reflexivity. Qed.

(** Five pages are imposed as eight: the slots of the logical pages 5, 6
    and 7 stay empty. *)
Example impose_five_pages :
  finalPageCount 5 = 8
  /\ map (fun pg => map page (drawn pg))
         (Main.impose plain_options 5
                      (fst (getSize a4_page)) (snd (getSize a4_page))
                      (fst a4_sheet) (snd a4_sheet))
     = [[0]; [1]; [2]; [3; 4]].
Proof. split; reflexivity. Qed.

(** Under double print every filled slot is stamped twice. *)
Example impose_five_pages_double :
  map (fun pg => map page (drawn pg))
      (Main.impose double_options 5
                   (fst (getSize a4_page)) (snd (getSize a4_page))
                   (fst a4_sheet) (snd a4_sheet))
  = [[0; 0]; [1; 1]; [2; 2]; [3; 3; 4; 4]].
Proof. reflexivity. Qed.

(** Nine pages, minimal script. *)
Example impose_nine_pages_minimal :
  map (fun pg => map page (drawn pg))
      (Minimal.impose 9 (fst (getSize a4_page)) (snd (getSize a4_page))
                      (fst a4_sheet) (snd a4_sheet))
  = [[0]; [1]; [2]; [3; 8]; [7; 4]; [5; 6]].
Proof. reflexivity. Qed.

(** The names of the outputs of a batch. *)
Example output_names :
  parse_name "report.PDF" = "report"
  /\ parse_name "a.b.pdf" = "a.b"
  /\ parse_name ".pdf" = ".pdf"
  /\ endsWith (toLowerCase "report.PDF") ".pdf" = true
  /\ endsWith (toLowerCase "pdf") ".pdf" = false.
Proof. repeat split. Qed.

(** ** The refuted statements in binary64

    The two numeric statements that the exact arithmetic refutes are
    refuted at the same inputs when the scripts are run on binary64. *)

Remark scale_negative_below_half_binary64 :
  PrimFloat.ltb (Main.Options.padding wide_padding_options_binary64)
                (a4_width_binary64 / 2)%float = true
  /\ PrimFloat.ltb
       (Main.scale wide_padding_options_binary64
                   a4_width_binary64 a4_height_binary64
                   a4_height_binary64 a4_width_binary64)
       0%float = true.
Proof. split; vm_compute; reflexivity. Qed.

Remark vertical_terms_agree_without_double_binary64 :
  Main.scaleY plain_options_binary64 a4_height_binary64 a4_width_binary64
  = Minimal.scaleY a4_height_binary64 a4_width_binary64.
Proof. vm_compute. reflexivity. Qed.

(** * Further properties of the scripts *)

(** ** Every source page is placed, and placed once *)

Lemma filter_Permutation_Z (f : Z -> bool) (l l' : list Z) :
  Permutation l l' -> Permutation (List.filter f l) (List.filter f l').
Proof.
  induction 1 as [|a l l' _ IH|a b l|l l' l'' _ IH1 _ IH2]; simpl.
  - constructor.
  - destruct (f a); [constructor|]; exact IH.
  - destruct (f a), (f b); try reflexivity. constructor.
  - etransitivity; eassumption.
Qed.

Lemma page_numbers_In (n k : Z) : In n (page_numbers k) <-> 0 <= n < k.
Proof.
  unfold page_numbers. rewrite in_map_iff. split.
  - intros (i & <- & Hi). apply in_seq in Hi. lia.
  - intros Hn. exists (Z.to_nat n). rewrite in_seq. lia.
Qed.

Lemma page_numbers_NoDup (k : Z) : List.NoDup (page_numbers k).
Proof.
  unfold page_numbers. apply Finite.Injective_map_NoDup.
  - intros a b Hab. lia.
  - apply seq_NoDup.
Qed.

Lemma page_numbers_length (k : Z) : length (page_numbers k) = Z.to_nat k.
Proof. unfold page_numbers. rewrite length_map, length_seq. reflexivity. Qed.

Lemma filter_none {A : Type} (f : A -> bool) (l : list A) :
  (forall a, In a l -> f a = false) -> List.filter f l = [].
Proof.
  induction l as [|a l IH]; intro Hall; [reflexivity|].
  simpl. rewrite (Hall a) by (left; reflexivity).
  apply IH. intros b Hb. apply Hall. right. exact Hb.
Qed.

(** Keeping the numbers below [n] of [0 .. k - 1], for [n <= k]. *)
Lemma page_numbers_below (n k : Z) :
  0 <= n <= k ->
  List.filter (fun m => m <? n) (page_numbers k) = page_numbers n.
Proof.
  intros Hn. unfold page_numbers.
  replace (Z.to_nat k) with (Z.to_nat n + (Z.to_nat k - Z.to_nat n))%nat by lia.
  rewrite seq_app, map_app, List.filter_app.
  rewrite <- (app_nil_r (map Z.of_nat (seq 0 (Z.to_nat n)))) at 2. f_equal.
  - apply List.forallb_filter_id. apply forallb_forall. intros m Hm.
    apply in_map_iff in Hm. destruct Hm as (i & <- & Hi). apply in_seq in Hi.
    apply Z.ltb_lt. lia.
  - apply filter_none. intros m Hm.
    apply in_map_iff in Hm. destruct Hm as (i & <- & Hi). apply in_seq in Hi.
    apply Z.ltb_ge. lia.
Qed.

Lemma asked_pages_length (final : Z) (indices : list Z) :
  length (asked_pages final indices) = (4 * length indices)%nat.
Proof. unfold asked_pages. induction indices as [|i l IH]; simpl in *; lia. Qed.

Lemma even_double (q : Z) : Z.even (2 * q) = true.
Proof. rewrite Z.even_mul. reflexivity. Qed.

(** Every logical page below [finalPageCount] is asked for. *)
Lemma asked_pages_covers (pageCount n : Z) :
  0 <= n < finalPageCount pageCount ->
  In n (asked_pages (finalPageCount pageCount)
                    (spec_indices (finalPageCount pageCount))).
Proof.
  intros Hn. unfold asked_pages. apply in_flat_map.
  pose proof (finalPageCount_half pageCount) as Hhalf.
  pose proof (finalPageCount_div pageCount) as Hdiv.
  set (final := finalPageCount pageCount) in *.
  set (m := (pageCount + 3) / 4) in *.
  destruct (Z_lt_dec n (2 * m)) as [Hlow | Hhigh].
  - destruct (Z.Even_or_Odd n) as [[q Hq] | [q Hq]].
    + exists n. split.
      * apply spec_indices_In. rewrite Hhalf. split; [lia|].
        rewrite Hq. apply even_double.
      * simpl. auto.
    + exists (n - 1). split.
      * apply spec_indices_In. rewrite Hhalf. split; [lia|].
        replace (n - 1) with (2 * q) by lia. apply even_double.
      * simpl. right. right. left. lia.
  - destruct (Z.Even_or_Odd (final - 1 - n)) as [[q Hq] | [q Hq]].
    + exists (final - 1 - n). split.
      * apply spec_indices_In. rewrite Hhalf. split; [lia|].
        rewrite Hq. apply even_double.
      * simpl. left. lia.
    + exists (final - 2 - n). split.
      * apply spec_indices_In. rewrite Hhalf. split; [lia|].
        replace (final - 2 - n) with (2 * q) by lia. apply even_double.
      * simpl. right. right. right. left. lia.
Qed.

(** The logical pages asked for are [0 .. finalPageCount - 1], each once. *)
Lemma asked_pages_Permutation (pageCount : Z) :
  Permutation (asked_pages (finalPageCount pageCount)
                           (spec_indices (finalPageCount pageCount)))
              (page_numbers (finalPageCount pageCount)).
Proof.
  assert (Hlen : (length (asked_pages (finalPageCount pageCount)
                            (spec_indices (finalPageCount pageCount)))
                  <= length (page_numbers (finalPageCount pageCount)))%nat).
  { rewrite asked_pages_length, page_numbers_length, spec_indices_evens.
    unfold evens_from. rewrite length_map, length_seq, finalPageCount_div. lia. }
  assert (Hincl : incl (page_numbers (finalPageCount pageCount))
                       (asked_pages (finalPageCount pageCount)
                                    (spec_indices (finalPageCount pageCount)))).
  { intros n Hn. apply asked_pages_covers, page_numbers_In, Hn. }
  apply Permutation.NoDup_Permutation.
  - exact (NoDup_incl_NoDup (page_numbers_NoDup _) Hlen Hincl).
  - apply page_numbers_NoDup.
  - intro n. split.
    + apply (NoDup_length_incl (page_numbers_NoDup _) Hlen Hincl).
    + apply Hincl.
Qed.

Lemma page_numbers_below_any (n k : Z) :
  n <= k ->
  List.filter (fun m => m <? n) (page_numbers k) = page_numbers n.
Proof.
  intro Hnk. destruct (Z_le_dec 0 n) as [Hn | Hn].
  - apply page_numbers_below. lia.
  - replace (page_numbers n) with (@nil Z)
      by (unfold page_numbers; replace (Z.to_nat n) with O by lia; reflexivity).
    apply filter_none. intros m Hm. apply page_numbers_In in Hm.
    apply Z.ltb_ge. lia.
Qed.

Lemma finalPageCount_ge (pageCount : Z) : pageCount <= finalPageCount pageCount.
Proof.
  rewrite finalPageCount_div.
  pose proof (Z.div_mod (pageCount + 3) 4 ltac:(lia)) as Hd.
  pose proof (Z.mod_pos_bound (pageCount + 3) 4 ltac:(lia)) as Hb.
  lia.
Qed.

Lemma placed_pages_app {num : Type} (doc doc' : PDFDocument num) :
  placed_pages (doc ++ doc') = placed_pages doc ++ placed_pages doc'.
Proof. unfold placed_pages. apply flat_map_app. Qed.

Section Coverage.
Context {num : Type} {NUM : JsNumber num}.
Variable options : Main.Options num.
Variable pageCount : Z.
Variables origWidth origHeight outputWidth outputHeight : num.

Local Abbreviation stamped := (copies (Main.Options.double options)).

Lemma Main_side_pages (left right : Z) :
  map page (drawn (Main.side options pageCount origWidth origHeight
                             outputWidth outputHeight left right))
  = flat_map stamped (List.filter (fun n => n <? pageCount) [left; right]).
Proof.
  unfold Main.side, Main.addPageToOutput, Main.stamps, copies.
  cbn [drawn List.filter]. rewrite map_app.
  destruct (left <? pageCount), (right <? pageCount),
    (Main.Options.double options); reflexivity.
Qed.

Lemma Minimal_side_pages (left right : Z) :
  map page (drawn (Minimal.side pageCount origWidth origHeight
                                outputWidth outputHeight left right))
  = List.filter (fun n => n <? pageCount) [left; right].
Proof.
  unfold Minimal.side, Minimal.addPageToOutput, Minimal.stamps.
  cbn [drawn List.filter]. rewrite map_app.
  destruct (left <? pageCount), (right <? pageCount); reflexivity.
Qed.

(** The source pages drawn, in drawing order: the pages asked for that
    exist. *)
Lemma Main_placed_pages :
  placed_pages (Main.impose options pageCount origWidth origHeight
                            outputWidth outputHeight)
  = flat_map stamped
      (List.filter (fun n => n <? pageCount)
                   (asked_pages (finalPageCount pageCount)
                                (spec_indices (finalPageCount pageCount)))).
Proof.
  rewrite Main_impose_sides. unfold asked_pages.
  induction (spec_indices (finalPageCount pageCount)) as [|index l IH].
  - reflexivity.
  - cbn [flat_map]. rewrite placed_pages_app, IH.
    rewrite List.filter_app, flat_map_app. f_equal.
    unfold placed_pages. cbn [flat_map]. rewrite app_nil_r, !Main_side_pages.
    rewrite <- flat_map_app, <- List.filter_app. reflexivity.
Qed.

Lemma Minimal_placed_pages :
  placed_pages (Minimal.impose pageCount origWidth origHeight
                               outputWidth outputHeight)
  = List.filter (fun n => n <? pageCount)
                (asked_pages (finalPageCount pageCount)
                             (spec_indices (finalPageCount pageCount))).
Proof.
  rewrite Minimal_impose_sides. unfold asked_pages.
  induction (spec_indices (finalPageCount pageCount)) as [|index l IH].
  - reflexivity.
  - cbn [flat_map]. rewrite placed_pages_app, IH.
    rewrite List.filter_app. f_equal.
    unfold placed_pages. cbn [flat_map]. rewrite app_nil_r, !Minimal_side_pages.
    rewrite <- List.filter_app. reflexivity.
Qed.
End Coverage.

(** X1: the full script places every source page, and no page more often
    than the others: the source pages of the placements of the output are,
    up to order, 0, ..., pageCount - 1, each once, or each twice under
    double print. *)
Theorem main_places_every_page {num : Type} {NUM : JsNumber num}
        (options : Main.Options num) (pageCount : Z)
        (origWidth origHeight outputWidth outputHeight : num) :
  Permutation
    (placed_pages (Main.impose options pageCount origWidth origHeight
                               outputWidth outputHeight))
    (flat_map (copies (Main.Options.double options))
              (page_numbers pageCount)).
Proof.
  rewrite Main_placed_pages. apply Permutation_flat_map.
  rewrite <- (page_numbers_below_any pageCount (finalPageCount pageCount))
    by apply finalPageCount_ge.
  apply filter_Permutation_Z, asked_pages_Permutation.
Qed.

(** X2: the minimal script places every source page exactly once: the
    source pages of the placements of the output are, up to order,
    0, ..., pageCount - 1. *)
Theorem minimal_places_every_page_once {num : Type} {NUM : JsNumber num}
        (pageCount : Z)
        (origWidth origHeight outputWidth outputHeight : num) :
  Permutation
    (placed_pages (Minimal.impose pageCount origWidth origHeight
                                  outputWidth outputHeight))
    (page_numbers pageCount).
Proof.
  rewrite Minimal_placed_pages.
  rewrite <- (page_numbers_below_any pageCount (finalPageCount pageCount))
    by apply finalPageCount_ge.
  apply filter_Permutation_Z, asked_pages_Permutation.
Qed.

(** ** The two pages of a side *)

Lemma odd_succ_double (q : Z) : Z.odd (1 + 2 * q) = true.
Proof. rewrite Z.odd_add_mul_2. reflexivity. Qed.

(** The pairs of logical pages that the loop puts on a side. *)
Lemma facing_pages (pageCount index left right : Z) :
  In index (spec_indices (finalPageCount pageCount)) ->
  (left = finalPageCount pageCount - 1 - index /\ right = index)
  \/ (left = index + 1 /\ right = finalPageCount pageCount - 2 - index) ->
  left + right = finalPageCount pageCount - 1
  /\ Z.odd left = true /\ Z.even right = true
  /\ 0 <= left < finalPageCount pageCount
  /\ 0 <= right < finalPageCount pageCount.
Proof.
  intros Hindex Hside. apply spec_indices_In in Hindex.
  destruct Hindex as [Hrange Heven].
  rewrite finalPageCount_half in Hrange.
  pose proof (finalPageCount_div pageCount) as Hdiv.
  set (final := finalPageCount pageCount) in *.
  set (m := (pageCount + 3) / 4) in *.
  apply Z.even_spec in Heven. destruct Heven as [q Hq].
  destruct Hside as [[-> ->] | [-> ->]].
  - split; [lia|]. split; [|split; [|lia]].
    + replace (final - 1 - index) with (1 + 2 * (2 * m - q - 1)) by lia.
      apply odd_succ_double.
    + rewrite Hq. apply even_double.
  - split; [lia|]. split; [|split; [|lia]].
    + replace (index + 1) with (1 + 2 * q) by lia. apply odd_succ_double.
    + replace (final - 2 - index) with (2 * (2 * m - q - 1)) by lia.
      apply even_double.
Qed.

(** X3: on every side of the output, of either script, the two logical
    pages add up to finalPageCount - 1, the left one has an odd index and
    the right one an even index, and both are below finalPageCount. *)
Theorem sides_pair_facing_pages {num : Type} {NUM : JsNumber num}
        (options : Main.Options num) (pageCount : Z)
        (origWidth origHeight outputWidth outputHeight : num) :
  let final := finalPageCount pageCount in
  let facing (left right : Z) :=
    left + right = final - 1
    /\ Z.odd left = true /\ Z.even right = true
    /\ 0 <= left < final /\ 0 <= right < final in
  Forall (fun pg =>
            exists left right : Z,
              pg = Main.side options pageCount origWidth origHeight
                             outputWidth outputHeight left right
              /\ facing left right)
         (Main.impose options pageCount origWidth origHeight
                      outputWidth outputHeight)
  /\ Forall (fun pg =>
               exists left right : Z,
                 pg = Minimal.side pageCount origWidth origHeight
                                   outputWidth outputHeight left right
                 /\ facing left right)
            (Minimal.impose pageCount origWidth origHeight
                            outputWidth outputHeight).
Proof.
  cbv zeta. split; apply List.Forall_forall; intros pg Hpg.
  - rewrite Main_impose_sides, in_flat_map in Hpg.
    destruct Hpg as (index & Hindex & [<- | [<- | []]]);
      eexists; eexists; (split; [reflexivity|]);
      apply (facing_pages pageCount index); auto.
  - rewrite Minimal_impose_sides, in_flat_map in Hpg.
    destruct Hpg as (index & Hindex & [<- | [<- | []]]);
      eexists; eexists; (split; [reflexivity|]);
      apply (facing_pages pageCount index); auto.
Qed.

(** ** What a run changes *)

Section RunEffects.
Context {num : Type} {NUM : JsNumber num}.

(** A run returns only on a document with a first page, and then the
    store it leaves is known. *)
Lemma Main_pdfToBooklet_Returned_inv (inputPath outputPath : string)
      (options : Main.Options num) (w w' : World num) (u : unit) :
  Main.pdfToBooklet inputPath outputPath options w = (Returned u, w') ->
  exists (firstPage : PDFPage num) (rest : PDFDocument num),
    fs w !! inputPath = Some (PdfFile (firstPage :: rest))
    /\ w' = mkWorld (reversedSizes (Main.Options.useA3 options) w)
                    (<[outputPath :=
                         PdfFile (Main.impose options
                                    (getPageCount (firstPage :: rest))
                                    (fst (getSize firstPage))
                                    (snd (getSize firstPage))
                                    (fst (sheetOf (Main.Options.useA3 options) w))
                                    (snd (sheetOf (Main.Options.useA3 options) w)))]>
                       (fs w))
                    (console w).
Proof.
  intro Hrun.
  destruct (fs w !! inputPath) as [[[|firstPage rest]|]|] eqn:Hin.
  - rewrite (Main_pdfToBooklet_empty _ _ _ _ Hin) in Hrun. discriminate.
  - rewrite (Main_pdfToBooklet_returns _ _ _ _ _ _ Hin) in Hrun.
    injection Hrun as _ <-. eauto.
  - unfold Main.pdfToBooklet, mbind, Script_bind, loadFile in Hrun.
    rewrite Hin in Hrun. discriminate.
  - unfold Main.pdfToBooklet, mbind, Script_bind, loadFile in Hrun.
    rewrite Hin in Hrun. discriminate.
Qed.

Lemma Minimal_pdfToBooklet_Returned_inv (inputPath outputPath : string)
      (options : Minimal.Options) (w w' : World num) (u : unit) :
  Minimal.pdfToBooklet inputPath outputPath options w = (Returned u, w') ->
  exists (firstPage : PDFPage num) (rest : PDFDocument num),
    fs w !! inputPath = Some (PdfFile (firstPage :: rest))
    /\ w' = mkWorld (reversedSizes (Minimal.Options.useA3 options) w)
                    (<[outputPath :=
                         PdfFile (Minimal.impose
                                    (getPageCount (firstPage :: rest))
                                    (fst (getSize firstPage))
                                    (snd (getSize firstPage))
                                    (fst (sheetOf (Minimal.Options.useA3 options) w))
                                    (snd (sheetOf (Minimal.Options.useA3 options) w)))]>
                       (fs w))
                    (console w).
Proof.
  intro Hrun.
  destruct (fs w !! inputPath) as [[[|firstPage rest]|]|] eqn:Hin.
  - rewrite (Minimal_pdfToBooklet_empty _ _ _ _ Hin) in Hrun. discriminate.
  - rewrite (Minimal_pdfToBooklet_returns _ _ _ _ _ _ Hin) in Hrun.
    injection Hrun as _ <-. eauto.
  - unfold Minimal.pdfToBooklet, mbind, Script_bind, loadFile in Hrun.
    rewrite Hin in Hrun. discriminate.
  - unfold Minimal.pdfToBooklet, mbind, Script_bind, loadFile in Hrun.
    rewrite Hin in Hrun. discriminate.
Qed.

Lemma Main_pdfToBooklet_Thrown_inv (inputPath outputPath : string)
      (options : Main.Options num) (w w' : World num) (e : Error) :
  Main.pdfToBooklet inputPath outputPath options w = (Thrown e, w') ->
  w' = w /\ e = errorFor inputPath w
  /\ (forall doc, fs w !! inputPath = Some (PdfFile doc) -> doc = []).
Proof.
  intro Hrun. unfold errorFor.
  destruct (fs w !! inputPath) as [[[|firstPage rest]|]|] eqn:Hin.
  - rewrite (Main_pdfToBooklet_empty _ _ _ _ Hin) in Hrun.
    injection Hrun as <- <-. repeat split. intros doc [= <-]. reflexivity.
  - rewrite (Main_pdfToBooklet_returns _ _ _ _ _ _ Hin) in Hrun. discriminate.
  - unfold Main.pdfToBooklet, mbind, Script_bind, loadFile in Hrun.
    rewrite Hin in Hrun. injection Hrun as <- <-.
    repeat split. intros doc [=].
  - unfold Main.pdfToBooklet, mbind, Script_bind, loadFile in Hrun.
    rewrite Hin in Hrun. injection Hrun as <- <-.
    repeat split. intros doc [=].
Qed.

Lemma Minimal_pdfToBooklet_Thrown_inv (inputPath outputPath : string)
      (options : Minimal.Options) (w w' : World num) (e : Error) :
  Minimal.pdfToBooklet inputPath outputPath options w = (Thrown e, w') ->
  w' = w /\ e = errorFor inputPath w
  /\ (forall doc, fs w !! inputPath = Some (PdfFile doc) -> doc = []).
Proof.
  intro Hrun. unfold errorFor.
  destruct (fs w !! inputPath) as [[[|firstPage rest]|]|] eqn:Hin.
  - rewrite (Minimal_pdfToBooklet_empty _ _ _ _ Hin) in Hrun.
    injection Hrun as <- <-. repeat split. intros doc [= <-]. reflexivity.
  - rewrite (Minimal_pdfToBooklet_returns _ _ _ _ _ _ Hin) in Hrun.
    discriminate.
  - unfold Minimal.pdfToBooklet, mbind, Script_bind, loadFile in Hrun.
    rewrite Hin in Hrun. injection Hrun as <- <-.
    repeat split. intros doc [=].
  - unfold Minimal.pdfToBooklet, mbind, Script_bind, loadFile in Hrun.
    rewrite Hin in Hrun. injection Hrun as <- <-.
    repeat split. intros doc [=].
Qed.
End RunEffects.

(** X7: a run of [pdfToBooklet] on an input path that holds nothing,
    something that is not a PDF, or a PDF without pages throws before it
    has changed anything, in either script: the files, the presets and the
    console are as they were, and the error is the one of the step that
    failed (reading the file, loading it, or reading the size of the
    missing first page). *)
Theorem load_failure_changes_nothing {num : Type} {NUM : JsNumber num}
        (inputPath outputPath : string)
        (options : Main.Options num) (minimal_options : Minimal.Options)
        (w : World num) :
  (forall doc, fs w !! inputPath = Some (PdfFile doc) -> doc = []) ->
  let e := match fs w !! inputPath with
           | None => ENOENT inputPath
           | Some OtherFile => InvalidPDF inputPath
           | Some (PdfFile _) => TypeError "getSize"
           end in
  Main.pdfToBooklet inputPath outputPath options w = (Thrown e, w)
  /\ Minimal.pdfToBooklet inputPath outputPath minimal_options w
     = (Thrown e, w).
Proof.
  intros Hbad e. split.
  - destruct (Main_pdfToBooklet_throws inputPath outputPath options w Hbad)
      as [e' He'].
    destruct (Main_pdfToBooklet_Thrown_inv _ _ _ _ _ _ He') as (_ & -> & _).
    exact He'.
  - destruct (Minimal_pdfToBooklet_throws inputPath outputPath
                minimal_options w Hbad) as [e' He'].
    destruct (Minimal_pdfToBooklet_Thrown_inv _ _ _ _ _ _ He') as (_ & -> & _).
    exact He'.
Qed.

Lemma load_failure_changes_nothing_witness :
  Main.pdfToBooklet "in/b.pdf" "out/b-booklet.pdf" plain_options sample_world
  = (Thrown (InvalidPDF "in/b.pdf"), sample_world)
  /\ Minimal.pdfToBooklet "in/missing.pdf" "out/b-booklet.pdf"
                          (Minimal.Options.mk false) sample_world
     = (Thrown (ENOENT "in/missing.pdf"), sample_world).
Proof.
  assert (Hb : forall doc,
             fs sample_world !! "in/b.pdf" = Some (PdfFile doc) -> doc = [])
    by (intros doc Hdoc; vm_compute in Hdoc; discriminate Hdoc).
  assert (Hm : forall doc,
             fs sample_world !! "in/missing.pdf" = Some (PdfFile doc) ->
             doc = [])
    by (intros doc Hdoc; vm_compute in Hdoc; discriminate Hdoc).
  pose proof (load_failure_changes_nothing
                "in/b.pdf" "out/b-booklet.pdf" plain_options
                (Minimal.Options.mk false) sample_world Hb) as Hload_b.
  pose proof (load_failure_changes_nothing
                "in/missing.pdf" "out/b-booklet.pdf" plain_options
                (Minimal.Options.mk false) sample_world Hm) as Hload_m.
  cbv zeta in Hload_b, Hload_m.
  destruct Hload_b as [HM _]. destruct Hload_m as [_ Hmin].
  split; [exact HM | exact Hmin].
Defined.

(** X8: a run of [pdfToBooklet] that returns, in either script, has
    changed the file system at the output path only, where a PDF now is;
    it has reversed the preset it used and left the other preset alone.
    In particular the input is still there unless it was the output. *)
Theorem returned_run_writes_output_only {num : Type} {NUM : JsNumber num}
        (inputPath outputPath : string)
        (options : Main.Options num) (minimal_options : Minimal.Options)
        (w w' : World num) :
  let changes (useA3 : bool) :=
    (forall path, path <> outputPath -> fs w' !! path = fs w !! path)
    /\ (exists doc, fs w' !! outputPath = Some (PdfFile doc))
    /\ (if useA3
        then A3 (PageSizes w') = reverse (A3 (PageSizes w))
             /\ A4 (PageSizes w') = A4 (PageSizes w)
        else A4 (PageSizes w') = reverse (A4 (PageSizes w))
             /\ A3 (PageSizes w') = A3 (PageSizes w)) in
  (Main.pdfToBooklet inputPath outputPath options w = (Returned tt, w') ->
   changes (Main.Options.useA3 options))
  /\ (Minimal.pdfToBooklet inputPath outputPath minimal_options w
      = (Returned tt, w') ->
      changes (Minimal.Options.useA3 minimal_options)).
Proof.
  cbv zeta. split; intro Hrun.
  - apply Main_pdfToBooklet_Returned_inv in Hrun.
    destruct Hrun as (firstPage & rest & _ & ->). cbn [fs PageSizes].
    unfold reversedSizes.
    split; [|split].
    + intros path Hne. apply lookup_insert_ne. congruence.
    + eexists. apply lookup_insert_eq.
    + destruct (Main.Options.useA3 options); split; reflexivity.
  - apply Minimal_pdfToBooklet_Returned_inv in Hrun.
    destruct Hrun as (firstPage & rest & _ & ->). cbn [fs PageSizes].
    unfold reversedSizes.
    split; [|split].
    + intros path Hne. apply lookup_insert_ne. congruence.
    + eexists. apply lookup_insert_eq.
    + destruct (Minimal.Options.useA3 minimal_options); split; reflexivity.
Qed.

Lemma returned_run_writes_output_only_witness :
  exists w' : World Q,
    Main.pdfToBooklet "in/a.pdf" "out/a-booklet.pdf" plain_options sample_world
    = (Returned tt, w')
    /\ fs w' !! "in/a.pdf" = fs sample_world !! "in/a.pdf"
    /\ A4 (PageSizes w') = reverse (A4 (PageSizes sample_world))
    /\ A3 (PageSizes w') = A3 (PageSizes sample_world).
Proof.
  pose (w' := snd (Main.pdfToBooklet "in/a.pdf" "out/a-booklet.pdf"
                                     plain_options sample_world)).
  assert (Hrun : Main.pdfToBooklet "in/a.pdf" "out/a-booklet.pdf"
                                   plain_options sample_world
                 = (Returned tt, w')) by reflexivity.
  destruct (returned_run_writes_output_only
              "in/a.pdf" "out/a-booklet.pdf" plain_options
              (Minimal.Options.mk false) sample_world w') as [HM _].
  destruct (HM Hrun) as (Hframe & _ & HA4 & HA3).
  exists w'. split; [exact Hrun|]. split; [|split; assumption].
  apply Hframe. discriminate.
Defined.

(** X9: two runs of [pdfToBooklet] one after the other in one process, as
    for two entries of a batch, do not impose on the same sheet: the pages
    written by the first have the reversed preset as their size, the pages
    written by the second have the preset as pdf-lib ships it, and after
    the second run the presets are back to what they were. *)
Theorem second_run_uses_unreversed_preset {num : Type} {NUM : JsNumber num}
        (inputPath1 outputPath1 inputPath2 outputPath2 : string)
        (options : Main.Options num) (w w1 w2 : World num) :
  Main.pdfToBooklet inputPath1 outputPath1 options w = (Returned tt, w1) ->
  Main.pdfToBooklet inputPath2 outputPath2 options w1 = (Returned tt, w2) ->
  let preset :=
    if Main.Options.useA3 options then A3 (PageSizes w) else A4 (PageSizes w) in
  exists doc1 doc2 : PDFDocument num,
    fs w1 !! outputPath1 = Some (PdfFile doc1)
    /\ Forall (fun pg => getSize pg = (snd preset, fst preset)) doc1
    /\ fs w2 !! outputPath2 = Some (PdfFile doc2)
    /\ Forall (fun pg => getSize pg = preset) doc2
    /\ PageSizes w2 = PageSizes w.
Proof.
  intros Hrun1 Hrun2 preset.
  apply Main_pdfToBooklet_Returned_inv in Hrun1.
  destruct Hrun1 as (first1 & rest1 & _ & ->).
  apply Main_pdfToBooklet_Returned_inv in Hrun2.
  destruct Hrun2 as (first2 & rest2 & _ & ->).
  cbn [fs PageSizes].
  eexists. eexists.
  split; [apply lookup_insert_eq|].
  split; [apply Main_impose_sizes|].
  split; [apply lookup_insert_eq|].
  split.
  - match goal with
    | |- Forall _ (Main.impose _ _ _ _ ?a ?b) =>
        replace preset with (a, b); [apply Main_impose_sizes|]
    end.
    subst preset. unfold sheetOf, reversedSizes, reverse. cbn [PageSizes].
    destruct (Main.Options.useA3 options); cbn [A3 A4 fst snd];
      match goal with |- _ = ?a => destruct a; reflexivity end.
  - unfold reversedSizes, reverse. cbn [PageSizes].
    destruct (PageSizes w) as [[a4w a4h] [a3w a3h]].
    destruct (Main.Options.useA3 options); reflexivity.
Qed.

Lemma second_run_uses_unreversed_preset_witness :
  exists (w1 w2 : World Q) (doc1 doc2 : PDFDocument Q),
    Main.pdfToBooklet "in/a.pdf" "out/a-booklet.pdf" plain_options sample_world
    = (Returned tt, w1)
    /\ Main.pdfToBooklet "in/c.pdf" "out/c-booklet.pdf" plain_options w1
       = (Returned tt, w2)
    /\ fs w1 !! "out/a-booklet.pdf" = Some (PdfFile doc1)
    /\ Forall (fun pg => getSize pg = a4_sheet) doc1
    /\ fs w2 !! "out/c-booklet.pdf" = Some (PdfFile doc2)
    /\ Forall (fun pg => getSize pg = A4 pdflib_PageSizes) doc2.
Proof.
  pose (w1 := snd (Main.pdfToBooklet "in/a.pdf" "out/a-booklet.pdf"
                                     plain_options sample_world)).
  pose (w2 := snd (Main.pdfToBooklet "in/c.pdf" "out/c-booklet.pdf"
                                     plain_options w1)).
  assert (H1 : Main.pdfToBooklet "in/a.pdf" "out/a-booklet.pdf"
                                 plain_options sample_world
               = (Returned tt, w1)) by reflexivity.
  assert (H2 : Main.pdfToBooklet "in/c.pdf" "out/c-booklet.pdf"
                                 plain_options w1
               = (Returned tt, w2)) by reflexivity.
  destruct (second_run_uses_unreversed_preset _ _ _ _ _ _ _ _ H1 H2)
    as (doc1 & doc2 & Ho1 & Hs1 & Ho2 & Hs2 & _).
  exists w1, w2, doc1, doc2. repeat split; assumption.
Defined.

(** ** Batches *)

Section BatchEffects.
Context {num : Type} {NUM : JsNumber num}.
Variable join : string -> string -> string.
Variables inputDirectory outputDirectory : string.

Lemma convertible_nonempty_impose (options : Main.Options num)
      (firstPage : PDFPage num) (rest : PDFDocument num)
      (origWidth origHeight outputWidth outputHeight : num) :
  Main.impose options (getPageCount (firstPage :: rest))
              origWidth origHeight outputWidth outputHeight <> [].
Proof.
  intro Hnil.
  assert (Hpos : 1 <= getPageCount (firstPage :: rest))
    by (unfold getPageCount; simpl; lia).
  pose proof (Main_impose_length options _ origWidth origHeight
                outputWidth outputHeight Hpos) as Hlen.
  rewrite Hnil, finalPageCount_half in Hlen. simpl in Hlen.
  assert (1 <= (getPageCount (firstPage :: rest) + 3) / 4)
    by (apply Z.div_le_lower_bound; lia).
  lia.
Qed.

Lemma Minimal_convertible_nonempty_impose
      (firstPage : PDFPage num) (rest : PDFDocument num)
      (origWidth origHeight outputWidth outputHeight : num) :
  Minimal.impose (getPageCount (firstPage :: rest))
                 origWidth origHeight outputWidth outputHeight <> [].
Proof.
  intro Hnil.
  assert (Hpos : 1 <= getPageCount (firstPage :: rest))
    by (unfold getPageCount; simpl; lia).
  pose proof (Minimal_impose_length _ origWidth origHeight
                outputWidth outputHeight Hpos) as Hlen.
  rewrite Hnil, finalPageCount_half in Hlen. simpl in Hlen.
  assert (1 <= (getPageCount (firstPage :: rest) + 3) / 4)
    by (apply Z.div_le_lower_bound; lia).
  lia.
Qed.

(** A run that returns leaves a PDF with at least one page at the output
    path; what held such a PDF before still does, and no other path has
    changed. *)
Lemma Main_run_returned (inputPath outputPath : string)
      (options : Main.Options num) (w w' : World num) (u : unit) :
  Main.pdfToBooklet inputPath outputPath options w = (Returned u, w') ->
  console w' = console w
  /\ convertible w' outputPath
  /\ (forall path, convertible w path -> convertible w' path)
  /\ (forall path, path <> outputPath -> fs w' !! path = fs w !! path).
Proof.
  intro Hrun.
  destruct (Main_pdfToBooklet_Returned_inv _ _ _ _ _ _ Hrun)
    as (firstPage & rest & _ & ->).
  cbn [fs console]. split; [reflexivity|]. split; [|split].
  - eexists. split; [apply convertible_nonempty_impose | apply lookup_insert_eq].
  - intros path (d & Hd & Hp).
    destruct (decide (outputPath = path)) as [<- | Hne].
    + eexists. split; [apply convertible_nonempty_impose | apply lookup_insert_eq].
    + exists d. split; [exact Hd|]. cbn [fs].
      rewrite lookup_insert_ne by exact Hne. exact Hp.
  - intros path Hne. apply lookup_insert_ne. congruence.
Qed.

Lemma Minimal_run_returned (inputPath outputPath : string)
      (options : Minimal.Options) (w w' : World num) (u : unit) :
  Minimal.pdfToBooklet inputPath outputPath options w = (Returned u, w') ->
  console w' = console w
  /\ convertible w' outputPath
  /\ (forall path, convertible w path -> convertible w' path)
  /\ (forall path, path <> outputPath -> fs w' !! path = fs w !! path).
Proof.
  intro Hrun.
  destruct (Minimal_pdfToBooklet_Returned_inv _ _ _ _ _ _ Hrun)
    as (firstPage & rest & _ & ->).
  cbn [fs console]. split; [reflexivity|]. split; [|split].
  - eexists. split; [apply Minimal_convertible_nonempty_impose
                    | apply lookup_insert_eq].
  - intros path (d & Hd & Hp).
    destruct (decide (outputPath = path)) as [<- | Hne].
    + eexists. split; [apply Minimal_convertible_nonempty_impose
                      | apply lookup_insert_eq].
    + exists d. split; [exact Hd|]. cbn [fs].
      rewrite lookup_insert_ne by exact Hne. exact Hp.
  - intros path Hne. apply lookup_insert_ne. congruence.
Qed.

Lemma convertible_same_fs (w w' : World num) (path : string) :
  fs w' = fs w -> convertible w path -> convertible w' path.
Proof. intros Hfs (doc & Hdoc & Hp). exists doc. rewrite Hfs. auto. Qed.

(** What [processBatch] has done for one entry, once its three statements
    have returned. *)
Lemma Main_batch_step_returned (options : Main.Options num) (file : string)
      (w w' : World num) :
  (console_info ("Processing: " ++ file);;
   Main.pdfToBooklet (join inputDirectory file)
                     (outputPathOf join outputDirectory file) options;;
   console_info ("Created booklet: "
                   ++ outputPathOf join outputDirectory file)) w
  = (Returned tt, w') ->
  console w'
  = console w
      ++ [info ("Processing: " ++ file);
          info ("Created booklet: " ++ outputPathOf join outputDirectory file)]
  /\ convertible w' (outputPathOf join outputDirectory file)
  /\ (forall path, convertible w path -> convertible w' path)
  /\ (forall path, path <> outputPathOf join outputDirectory file ->
                   fs w' !! path = fs w !! path).
Proof.
  intro Hrun. cbv [mbind Script_bind console_info] in Hrun.
  set (w0 := mkWorld (PageSizes w) (fs w)
                     (console w ++ [info ("Processing: " ++ file)])) in Hrun.
  destruct (Main.pdfToBooklet (join inputDirectory file)
              (outputPathOf join outputDirectory file) options w0)
    as [[u|e] w1] eqn:Hconv; [|discriminate Hrun].
  injection Hrun as <-.
  destruct (Main_run_returned _ _ _ _ _ _ Hconv)
    as (Hconsole & Hout & Hkeep & Hframe).
  cbn [console fs]. rewrite Hconsole. subst w0. cbn [console].
  rewrite <- app_assoc. split; [reflexivity|].
  split; [|split].
  - apply (convertible_same_fs w1); [reflexivity | exact Hout].
  - intros path Hp. apply (convertible_same_fs w1); [reflexivity|].
    apply Hkeep. apply (convertible_same_fs w); [reflexivity | exact Hp].
  - intros path Hne. rewrite (Hframe path Hne). reflexivity.
Qed.

Lemma Minimal_batch_step_returned (options : Minimal.Options) (file : string)
      (w w' : World num) :
  (console_info ("Processing: " ++ file);;
   Minimal.pdfToBooklet (join inputDirectory file)
                        (outputPathOf join outputDirectory file) options;;
   console_info ("Created booklet: "
                   ++ outputPathOf join outputDirectory file)) w
  = (Returned tt, w') ->
  console w'
  = console w
      ++ [info ("Processing: " ++ file);
          info ("Created booklet: " ++ outputPathOf join outputDirectory file)]
  /\ convertible w' (outputPathOf join outputDirectory file)
  /\ (forall path, convertible w path -> convertible w' path)
  /\ (forall path, path <> outputPathOf join outputDirectory file ->
                   fs w' !! path = fs w !! path).
Proof.
  intro Hrun. cbv [mbind Script_bind console_info] in Hrun.
  set (w0 := mkWorld (PageSizes w) (fs w)
                     (console w ++ [info ("Processing: " ++ file)])) in Hrun.
  destruct (Minimal.pdfToBooklet (join inputDirectory file)
              (outputPathOf join outputDirectory file) options w0)
    as [[u|e] w1] eqn:Hconv; [|discriminate Hrun].
  injection Hrun as <-.
  destruct (Minimal_run_returned _ _ _ _ _ _ Hconv)
    as (Hconsole & Hout & Hkeep & Hframe).
  cbn [console fs]. rewrite Hconsole. subst w0. cbn [console].
  rewrite <- app_assoc. split; [reflexivity|].
  split; [|split].
  - apply (convertible_same_fs w1); [reflexivity | exact Hout].
  - intros path Hp. apply (convertible_same_fs w1); [reflexivity|].
    apply Hkeep. apply (convertible_same_fs w); [reflexivity | exact Hp].
  - intros path Hne. rewrite (Hframe path Hne). reflexivity.
Qed.

(** A loop over the entries that converts the PDF entries one by one, once
    it has returned. *)
Lemma batch_returned
      (step : string -> Script num unit)
      (batch : list string -> Script num unit)
      (Hnil : batch [] = mret tt)
      (Hcons : forall file files,
          batch (file :: files)
          = ((if endsWith (toLowerCase file) ".pdf"
              then step file else mret tt);;
             batch files))
      (Hstep : forall file w w',
          step file w = (Returned tt, w') ->
          console w'
          = console w
              ++ [info ("Processing: " ++ file);
                  info ("Created booklet: "
                          ++ outputPathOf join outputDirectory file)]
          /\ convertible w' (outputPathOf join outputDirectory file)
          /\ (forall path, convertible w path -> convertible w' path)
          /\ (forall path, path <> outputPathOf join outputDirectory file ->
                           fs w' !! path = fs w !! path)) :
  forall (files : list string) (w w' : World num),
    batch files w = (Returned tt, w') ->
    console w' = console w ++ batch_lines join outputDirectory files
    /\ (forall path, convertible w path -> convertible w' path)
    /\ (forall file, In file (pdf_entries files) ->
                     convertible w' (outputPathOf join outputDirectory file))
    /\ (forall path,
           (forall file, In file (pdf_entries files) ->
                         path <> outputPathOf join outputDirectory file) ->
           fs w' !! path = fs w !! path).
Proof.
  induction files as [|file files IH]; intros w w' Hrun.
  - rewrite Hnil in Hrun. injection Hrun as <-.
    unfold batch_lines. cbn. rewrite app_nil_r.
    repeat split; auto. intros file [].
  - rewrite Hcons in Hrun. unfold batch_lines, pdf_entries in *.
    cbn [List.filter] in *. unfold mbind, Script_bind in Hrun.
    destruct (endsWith (toLowerCase file) ".pdf") eqn:Hpdf.
    + destruct (step file w) as [[[]|e] w1] eqn:Hone; [|discriminate Hrun].
      destruct (Hstep file w w1 Hone) as (Hc1 & Hout1 & Hkeep1 & Hframe1).
      destruct (IH w1 w' Hrun) as (Hc2 & Hkeep2 & Hout2 & Hframe2).
      split; [|split; [|split]].
      * rewrite Hc2, Hc1. cbn [flat_map]. rewrite <- app_assoc. reflexivity.
      * intros path Hp. apply Hkeep2, Hkeep1, Hp.
      * intros f [<- | Hf]; [apply Hkeep2, Hout1 | apply Hout2, Hf].
      * intros path Hne. rewrite Hframe2, Hframe1.
        -- reflexivity.
        -- apply Hne. left. reflexivity.
        -- intros f Hf. apply Hne. right. exact Hf.
    + unfold mret, Script_ret in Hrun. apply (IH w w' Hrun).
Qed.

Lemma Main_processBatch_returned (options : Main.Options num)
      (files : list string) (w w' : World num) :
  Main.processBatch join inputDirectory outputDirectory options files w
  = (Returned tt, w') ->
  console w' = console w ++ batch_lines join outputDirectory files
  /\ (forall path, convertible w path -> convertible w' path)
  /\ (forall file, In file (pdf_entries files) ->
                   convertible w' (outputPathOf join outputDirectory file))
  /\ (forall path,
         (forall file, In file (pdf_entries files) ->
                       path <> outputPathOf join outputDirectory file) ->
         fs w' !! path = fs w !! path).
Proof.
  apply (batch_returned
           (fun file =>
              console_info ("Processing: " ++ file);;
              Main.pdfToBooklet (join inputDirectory file)
                                (outputPathOf join outputDirectory file) options;;
              console_info ("Created booklet: "
                              ++ outputPathOf join outputDirectory file))
           (Main.processBatch join inputDirectory outputDirectory options)).
  - reflexivity.
  - reflexivity.
  - intros file w0 w1. apply Main_batch_step_returned.
Qed.

Lemma Minimal_processBatch_returned (options : Minimal.Options)
      (files : list string) (w w' : World num) :
  Minimal.processBatch join inputDirectory outputDirectory options files w
  = (Returned tt, w') ->
  console w' = console w ++ batch_lines join outputDirectory files
  /\ (forall path, convertible w path -> convertible w' path)
  /\ (forall file, In file (pdf_entries files) ->
                   convertible w' (outputPathOf join outputDirectory file))
  /\ (forall path,
         (forall file, In file (pdf_entries files) ->
                       path <> outputPathOf join outputDirectory file) ->
         fs w' !! path = fs w !! path).
Proof.
  apply (batch_returned
           (fun file =>
              console_info ("Processing: " ++ file);;
              Minimal.pdfToBooklet (join inputDirectory file)
                                   (outputPathOf join outputDirectory file) options;;
              console_info ("Created booklet: "
                              ++ outputPathOf join outputDirectory file))
           (Minimal.processBatch join inputDirectory outputDirectory options)).
  - reflexivity.
  - reflexivity.
  - intros file w0 w1. apply Minimal_batch_step_returned.
Qed.

Lemma Script_bind_ext (m k1 k2 : Script num unit) :
  (forall w, k1 w = k2 w) ->
  forall w, (m;; k1) w = (m;; k2) w.
Proof.
  intros Hk w. unfold mbind, Script_bind.
  destruct (m w) as [[[]|e] w1]; [apply Hk | reflexivity].
Qed.

(** Entries that are not PDF entries do not matter to the loop. *)
Lemma Main_processBatch_pdf_entries (options : Main.Options num)
      (files : list string) (w : World num) :
  Main.processBatch join inputDirectory outputDirectory options files w
  = Main.processBatch join inputDirectory outputDirectory options
                      (pdf_entries files) w.
Proof.
  unfold Main.processBatch, pdf_entries. revert w.
  induction files as [|file files IH]; intro w; [reflexivity|].
  cbn [List.filter Main.processBatch_for].
  destruct (endsWith (toLowerCase file) ".pdf") eqn:Hpdf.
  - cbn [Main.processBatch_for]. rewrite Hpdf.
    apply Script_bind_ext. exact IH.
  - unfold mbind, Script_bind, mret, Script_ret. apply IH.
Qed.

Lemma Minimal_processBatch_pdf_entries (options : Minimal.Options)
      (files : list string) (w : World num) :
  Minimal.processBatch join inputDirectory outputDirectory options files w
  = Minimal.processBatch join inputDirectory outputDirectory options
                         (pdf_entries files) w.
Proof.
  unfold Minimal.processBatch, pdf_entries. revert w.
  induction files as [|file files IH]; intro w; [reflexivity|].
  cbn [List.filter Minimal.processBatch_for].
  destruct (endsWith (toLowerCase file) ".pdf") eqn:Hpdf.
  - cbn [Minimal.processBatch_for]. rewrite Hpdf.
    apply Script_bind_ext. exact IH.
  - unfold mbind, Script_bind, mret, Script_ret. apply IH.
Qed.
End BatchEffects.

(** X10: entries of the input directory that do not end in ".pdf" (in any
    mix of cases) do not matter: the batch mode of either script behaves on
    a listing as it does on the PDF entries of that listing. *)
Theorem other_entries_are_ignored {num : Type} {NUM : JsNumber num}
        (join : string -> string -> string)
        (inputDirectory outputDirectory : string)
        (options : Main.Options num) (minimal_options : Minimal.Options)
        (files : list string) (w : World num) :
  Main.batchMode join inputDirectory outputDirectory options files w
  = Main.batchMode join inputDirectory outputDirectory options
                   (pdf_entries files) w
  /\ Minimal.batchMode join inputDirectory outputDirectory minimal_options
                       files w
     = Minimal.batchMode join inputDirectory outputDirectory minimal_options
                         (pdf_entries files) w.
Proof.
  unfold Main.batchMode, Minimal.batchMode, try_catch, mbind, Script_bind.
  rewrite (Main_processBatch_pdf_entries join inputDirectory outputDirectory
             options files w).
  rewrite (Minimal_processBatch_pdf_entries join inputDirectory outputDirectory
             minimal_options files w).
  split; reflexivity.
Qed.

(** X11: whenever the loop of [processBatch] over the entries returns, in
    either script, every PDF entry has been converted: every output path
    holds a PDF with at least one page, no path other than the output paths
    has changed, the console has got the two lines of each PDF entry, in
    order (for the full script: without [--debug]), and the batch mode then
    adds the line of completion and returns.  Nothing is said of a loop
    that throws. *)
Theorem returned_batch_has_converted_every_entry
        {num : Type} {NUM : JsNumber num}
        (join : string -> string -> string)
        (inputDirectory outputDirectory : string)
        (options : Main.Options num) (minimal_options : Minimal.Options)
        (files : list string) (w : World num) :
  let converted (w' : World num) :=
    (forall file, In file (pdf_entries files) ->
                  convertible w' (outputPathOf join outputDirectory file))
    /\ (forall path,
           (forall file, In file (pdf_entries files) ->
                         path <> outputPathOf join outputDirectory file) ->
           fs w' !! path = fs w !! path) in
  let completed_after (w' : World num) :=
    (Returned tt,
     mkWorld (PageSizes w') (fs w')
             (console w' ++ [info "Batch processing completed successfully"])) in
  (forall w',
      Main.processBatch join inputDirectory outputDirectory options files w
      = (Returned tt, w') ->
      converted w'
      /\ (Main.Options.debug options = false ->
          console w' = console w ++ batch_lines join outputDirectory files)
      /\ Main.batchMode join inputDirectory outputDirectory options files w
         = completed_after w')
  /\ (forall w',
         Minimal.processBatch join inputDirectory outputDirectory
                              minimal_options files w
         = (Returned tt, w') ->
         converted w'
         /\ console w' = console w ++ batch_lines join outputDirectory files
         /\ Minimal.batchMode join inputDirectory outputDirectory
                              minimal_options files w
            = completed_after w').
Proof.
  cbv zeta. split; intros w' Hrun.
  - destruct (Main_processBatch_returned join inputDirectory outputDirectory
                options files w w' Hrun) as (Hconsole & _ & Hout & Hframe).
    split; [split; assumption|]. split; [intros _; exact Hconsole|].
    unfold Main.batchMode, try_catch, mbind, Script_bind. rewrite Hrun.
    reflexivity.
  - destruct (Minimal_processBatch_returned join inputDirectory outputDirectory
                minimal_options files w w' Hrun)
      as (Hconsole & _ & Hout & Hframe).
    split; [split; assumption|]. split; [exact Hconsole|].
    unfold Minimal.batchMode, try_catch, mbind, Script_bind. rewrite Hrun.
    reflexivity.
Qed.

Lemma returned_batch_has_converted_every_entry_witness :
  exists w' : World Q,
    Main.processBatch slash_join "in" "out" plain_options
                      ["a.pdf"; "notes.txt"; "c.pdf"] sample_world
    = (Returned tt, w')
    /\ console w'
       = [info "Processing: a.pdf"; info "Created booklet: out/a-booklet.pdf";
          info "Processing: c.pdf"; info "Created booklet: out/c-booklet.pdf"]
    /\ convertible w' "out/c-booklet.pdf"
    /\ fs w' !! "in/b.pdf" = Some OtherFile.
Proof.
  pose (w' := snd (Main.processBatch slash_join "in" "out" plain_options
                     ["a.pdf"; "notes.txt"; "c.pdf"] sample_world)).
  assert (Hrun : Main.processBatch slash_join "in" "out" plain_options
                   ["a.pdf"; "notes.txt"; "c.pdf"] sample_world
                 = (Returned tt, w')) by reflexivity.
  pose proof (returned_batch_has_converted_every_entry
                slash_join "in" "out" plain_options (Minimal.Options.mk false)
                ["a.pdf"; "notes.txt"; "c.pdf"] sample_world) as Hbatch.
  cbv zeta in Hbatch. destruct Hbatch as [HM _].
  destruct (HM w' Hrun) as ((Hout & Hframe) & Hconsole & _).
  exists w'. split; [exact Hrun|]. split; [exact (Hconsole eq_refl)|].
  split.
  - apply (Hout "c.pdf"). simpl. auto.
  - rewrite Hframe; [reflexivity|].
    intros file [<- | [<- | []]]; discriminate.
Defined.

(** ** Which entries are converted, and under which name *)

Section Names.
Local Open Scope string_scope.

Lemma string_length_app (s t : string) :
  String.length (s ++ t) = (String.length s + String.length t)%nat.
Proof. induction s as [|c s IH]; simpl; [reflexivity | rewrite IH; reflexivity]. Qed.

Lemma substring_all (s : string) : substring 0 (String.length s) s = s.
Proof. induction s as [|c s IH]; simpl; [reflexivity | rewrite IH; reflexivity]. Qed.

Lemma substring_app_l (s t : string) :
  substring 0 (String.length s) (s ++ t) = s.
Proof. induction s as [|c s IH]; simpl; [|rewrite IH; reflexivity]. destruct t; reflexivity. Qed.

Lemma substring_app_r (s t : string) :
  substring (String.length s) (String.length t) (s ++ t) = t.
Proof. induction s as [|c s IH]; simpl; [apply substring_all | exact IH]. Qed.

(** A string is its first [k] characters followed by the rest. *)
Lemma substring_split (s : string) (k : nat) :
  (k <= String.length s)%nat ->
  s = substring 0 k s ++ substring k (String.length s - k) s.
Proof.
  revert k. induction s as [|c s IH]; intros k Hk.
  - destruct k; [reflexivity | simpl in Hk; lia].
  - destruct k as [|k].
    + simpl. rewrite substring_all. reflexivity.
    + cbn [String.length] in Hk.
      change (String c s
              = String c (substring 0 k s
                            ++ substring k (String.length s - k) s)).
      f_equal. apply IH. lia.
Qed.

Lemma toLowerCase_app (s t : string) :
  toLowerCase (s ++ t) = toLowerCase s ++ toLowerCase t.
Proof. induction s as [|c s IH]; simpl; [reflexivity | rewrite IH; reflexivity]. Qed.

Lemma toLowerCase_length (s : string) :
  String.length (toLowerCase s) = String.length s.
Proof. induction s as [|c s IH]; simpl; [reflexivity | rewrite IH; reflexivity]. Qed.

Lemma toLowerCase_substring (s : string) (i k : nat) :
  toLowerCase (substring i k s) = substring i k (toLowerCase s).
Proof.
  revert i k. induction s as [|c s IH]; intros i k.
  - destruct i, k; reflexivity.
  - destruct i as [|i]; [destruct k as [|k]|]; simpl; [reflexivity | |apply IH].
    rewrite IH. reflexivity.
Qed.

(** Only a dot is lowered to a dot. *)
Lemma toLowerCase_ascii_dot (c : ascii) :
  toLowerCase_ascii c = "."%char -> c = "."%char.
Proof.
  destruct c as [[] [] [] [] [] [] [] []]; vm_compute; intro H;
    first [reflexivity | discriminate H].
Qed.

(** The extensions that are accepted: a dot and three letters, none of
    them a dot. *)
Lemma pdf_extension_shape (ext : string) :
  toLowerCase ext = ".pdf" ->
  exists b c d : ascii,
    ext = String "." (String b (String c (String d "")))
    /\ b <> "."%char /\ c <> "."%char /\ d <> "."%char.
Proof.
  destruct ext as [|a [|b [|c [|d [|e ext]]]]]; try discriminate.
  simpl. intros [= Ha Hb Hc Hd].
  apply toLowerCase_ascii_dot in Ha. subst a.
  exists b, c, d. split; [reflexivity|].
  repeat split; intros ->; discriminate.
Qed.

Lemma lastDot_app (s t : string) :
  lastDot (s ++ t)
  = match lastDot t with
    | Some i => Some (String.length s + i)%nat
    | None => lastDot s
    end.
Proof.
  induction s as [|c s IH].
  - change ("" ++ t) with t. destruct (lastDot t); reflexivity.
  - change (String c s ++ t) with (String c (s ++ t)).
    cbn [lastDot String.length]. rewrite IH.
    destruct (lastDot t); [reflexivity|].
    destruct (lastDot s); reflexivity.
Qed.

Lemma lastDot_pdf_extension (ext : string) :
  toLowerCase ext = ".pdf" -> lastDot ext = Some O.
Proof.
  intro Hext. destruct (pdf_extension_shape ext Hext)
    as (b & c & d & -> & Hb & Hc & Hd).
  simpl.
  destruct (Ascii.eqb_spec d "."); [contradiction|].
  destruct (Ascii.eqb_spec c "."); [contradiction|].
  destruct (Ascii.eqb_spec b "."); [contradiction|].
  reflexivity.
Qed.

(** The name of an accepted entry is the entry without its last four
    characters, unless nothing would be left. *)
Lemma parse_name_pdf (stem ext : string) :
  toLowerCase ext = ".pdf" ->
  parse_name (stem ++ ext) = if String.eqb stem "" then ext else stem.
Proof.
  intro Hext. unfold parse_name.
  rewrite lastDot_app, (lastDot_pdf_extension ext Hext), Nat.add_0_r.
  destruct stem as [|c stem]; [reflexivity|].
  cbn [String.length String.eqb].
  replace (String.eqb (String c stem ++ ext) "..") with false.
  - apply (substring_app_l (String c stem) ext).
  - symmetry. apply String.eqb_neq. intro Heq.
    apply (f_equal String.length) in Heq.
    rewrite string_length_app in Heq.
    apply (f_equal String.length) in Hext.
    rewrite toLowerCase_length in Hext. simpl in Heq, Hext. lia.
Qed.

Lemma endsWith_pdf_iff (file : string) :
  endsWith (toLowerCase file) ".pdf" = true
  <-> exists stem ext, file = stem ++ ext /\ toLowerCase ext = ".pdf".
Proof.
  unfold endsWith. rewrite toLowerCase_length. cbn [String.length]. split.
  - destruct (Nat.leb_spec 4 (String.length file)) as [Hlen|]; [|discriminate].
    intro Heq. apply String.eqb_eq in Heq.
    exists (substring 0 (String.length file - 4) file),
      (substring (String.length file - 4) 4 file).
    split.
    + pose proof (substring_split file (String.length file - 4) ltac:(lia))
        as Hsplit.
      replace (String.length file - (String.length file - 4))%nat
        with 4%nat in Hsplit by lia.
      exact Hsplit.
    + rewrite toLowerCase_substring. exact Heq.
  - intros (stem & ext & -> & Hext).
    assert (Hlen : String.length ext = 4%nat).
    { apply (f_equal String.length) in Hext.
      rewrite toLowerCase_length in Hext. exact Hext. }
    rewrite string_length_app, Hlen.
    destruct (Nat.leb_spec 4 (String.length stem + 4)) as [_|]; [|lia].
    apply String.eqb_eq.
    replace (String.length stem + 4 - 4)%nat
      with (String.length (toLowerCase stem))
      by (rewrite toLowerCase_length; lia).
    rewrite toLowerCase_app.
    replace 4%nat with (String.length (toLowerCase ext))
      by (rewrite toLowerCase_length; exact Hlen).
    rewrite substring_app_r. exact Hext.
Qed.
End Names.

Lemma toLowerCase_ascii_p (c : ascii) :
  toLowerCase_ascii c = "p"%char -> c = "p"%char \/ c = "P"%char.
Proof.
  destruct c as [[] [] [] [] [] [] [] []]; vm_compute; intro H;
    first [left; reflexivity | right; reflexivity | discriminate H].
Qed.

Lemma toLowerCase_ascii_d (c : ascii) :
  toLowerCase_ascii c = "d"%char -> c = "d"%char \/ c = "D"%char.
Proof.
  destruct c as [[] [] [] [] [] [] [] []]; vm_compute; intro H;
    first [left; reflexivity | right; reflexivity | discriminate H].
Qed.

Lemma toLowerCase_ascii_f (c : ascii) :
  toLowerCase_ascii c = "f"%char -> c = "f"%char \/ c = "F"%char.
Proof.
  destruct c as [[] [] [] [] [] [] [] []]; vm_compute; intro H;
    first [left; reflexivity | right; reflexivity | discriminate H].
Qed.

(** X12: [processBatch] converts an entry exactly when its last four
    characters are a dot followed by p or P, d or D, and f or F. *)
Theorem converted_entries_end_in_pdf (file : string) :
  endsWith (toLowerCase file) ".pdf" = true
  <-> exists (stem : string) (b c d : ascii),
      file = (stem ++ String "." (String b (String c (String d ""))))%string
      /\ (b = "p" \/ b = "P")%char
      /\ (c = "d" \/ c = "D")%char
      /\ (d = "f" \/ d = "F")%char.
Proof.
  rewrite endsWith_pdf_iff. split.
  - intros (stem & ext & -> & Hext).
    destruct ext as [|a [|b [|c [|d [|e ext]]]]]; try discriminate.
    simpl in Hext. injection Hext as Ha Hb Hc Hd.
    apply toLowerCase_ascii_dot in Ha. subst a.
    exists stem, b, c, d. split; [reflexivity|].
    auto using toLowerCase_ascii_p, toLowerCase_ascii_d, toLowerCase_ascii_f.
  - intros (stem & b & c & d & -> & Hb & Hc & Hd).
    eexists. eexists. split; [reflexivity|].
    destruct Hb as [-> | ->], Hc as [-> | ->], Hd as [-> | ->]; reflexivity.
Qed.

(** X13: the output of a converted entry is named after the entry without
    its last four characters, whatever their case: entries that differ
    only in the case of the extension are written to the same output path.
    An entry that is nothing but the extension keeps it in the name of its
    output. *)
Theorem output_name_drops_extension (join : string -> string -> string)
        (outputDirectory stem ext ext' : string) :
  toLowerCase ext = ".pdf"%string ->
  toLowerCase ext' = ".pdf"%string ->
  (stem <> ""%string ->
   outputPathOf join outputDirectory (stem ++ ext)
   = join outputDirectory (stem ++ "-booklet.pdf")%string
   /\ outputPathOf join outputDirectory (stem ++ ext)
      = outputPathOf join outputDirectory (stem ++ ext'))
  /\ outputPathOf join outputDirectory ext
     = join outputDirectory (ext ++ "-booklet.pdf")%string.
Proof.
  intros Hext Hext'. unfold outputPathOf. split.
  - intro Hstem.
    rewrite !parse_name_pdf by assumption.
    destruct (String.eqb_spec stem ""); [contradiction|]. auto.
  - change ext with (""%string ++ ext)%string at 1.
    rewrite parse_name_pdf by assumption. reflexivity.
Qed.

Lemma output_name_drops_extension_witness :
  outputPathOf slash_join "out" "report.pdf" = "out/report-booklet.pdf"%string
  /\ outputPathOf slash_join "out" "report.pdf"
     = outputPathOf slash_join "out" "report.PDF"
  /\ outputPathOf slash_join "out" ".pdf" = "out/.pdf-booklet.pdf"%string.
Proof.
  destruct (output_name_drops_extension slash_join "out" "report" ".pdf" ".PDF"
              eq_refl eq_refl) as [Hstem Hbare].
  destruct (Hstem ltac:(discriminate)) as [Hname Hsame].
  split; [exact Hname | split; [exact Hsame | exact Hbare]].
Defined.

(** ** The command line *)

Lemma indexOf_range (arguments_ : list string) (s : string) :
  indexOf arguments_ s = -1
  \/ 0 <= indexOf arguments_ s < Z.of_nat (length arguments_).
Proof.
  induction arguments_ as [|a rest IH]; [left; reflexivity|].
  cbn [indexOf length]. destruct (String.eqb a s); [right; lia|].
  destruct IH as [-> | IH]; [left; reflexivity|].
  destruct (Z.eqb_spec (indexOf rest s) (-1)); [lia | right; lia].
Qed.

Lemma indexOf_absent (arguments_ : list string) (s : string) :
  ~ In s arguments_ -> indexOf arguments_ s = -1.
Proof.
  induction arguments_ as [|a rest IH]; intro Hnot; [reflexivity|].
  cbn [indexOf]. destruct (String.eqb_spec a s) as [-> | _].
  - exfalso. apply Hnot. left. reflexivity.
  - rewrite IH; [reflexivity|]. intro Hin. apply Hnot. right. exact Hin.
Qed.

Lemma indexOf_first (pre post : list string) (s : string) :
  ~ In s pre -> indexOf (pre ++ s :: post) s = Z.of_nat (length pre).
Proof.
  induction pre as [|a pre IH]; intro Hnot.
  - cbn [app indexOf length]. rewrite String.eqb_refl. reflexivity.
  - cbn [app indexOf length]. destruct (String.eqb_spec a s) as [-> | _].
    + exfalso. apply Hnot. left. reflexivity.
    + rewrite IH by (intro Hin; apply Hnot; right; exact Hin).
      destruct (Z.eqb_spec (Z.of_nat (length pre)) (-1)); lia.
Qed.

Lemma at_index_app (pre post : list string) (k : nat) :
  at_index (pre ++ post) (Z.of_nat (length pre) + Z.of_nat k) = post !! k.
Proof.
  unfold at_index.
  destruct (Z.ltb_spec (Z.of_nat (length pre) + Z.of_nat k) 0); [lia|].
  replace (Z.to_nat (Z.of_nat (length pre) + Z.of_nat k))
    with (length pre + k)%nat by lia.
  rewrite lookup_app_r by lia. f_equal. lia.
Qed.

(** X14: the padding is the number after the first [--padding] on the
    command line, whatever that argument is (a later [--padding] is not
    looked at); the three switches are read from the whole command line. *)
Theorem padding_is_read_after_first_flag {num : Type} {NUM : JsNumber num}
        (parseFloat : option string -> num)
        (pre post : list string) (value : string) :
  ~ In "--padding"%string pre ->
  let arguments_ := pre ++ "--padding"%string :: value :: post in
  MainScript.options parseFloat arguments_
  = Main.Options.mk num (includes arguments_ "--a3")
                    (includes arguments_ "--debug")
                    (includes arguments_ "--double")
                    (parseFloat (Some value)).
Proof.
  intros Hpre arguments_. unfold MainScript.options.
  fold arguments_.
  assert (Hindex : indexOf arguments_ "--padding" = Z.of_nat (length pre))
    by (apply indexOf_first; exact Hpre).
  rewrite Hindex.
  assert (Hlen : length arguments_ = (length pre + S (S (length post)))%nat)
    by (subst arguments_; rewrite length_app; reflexivity).
  destruct (Z.eqb_spec (Z.of_nat (length pre)) (-1)); [lia|].
  destruct (Z.ltb_spec (Z.of_nat (length pre))
                       (Z.of_nat (length arguments_) - 1)); [|lia].
  cbn [negb andb Main.Options.useA3 Main.Options.debug Main.Options.double].
  f_equal. f_equal.
  subst arguments_. replace 1 with (Z.of_nat 1) by reflexivity.
  rewrite at_index_app. reflexivity.
Qed.

Lemma padding_is_read_after_first_flag_witness :
  MainScript.options (fun s => match s with
                               | Some "5"%string => 5%Q
                               | _ => 7%Q
                               end)
                     ["in.pdf"; "out.pdf"; "--padding"; "5"; "--double";
                      "--padding"; "9"]%string
  = Main.Options.mk Q false false true 5%Q.
Proof.
  apply (padding_is_read_after_first_flag
           (fun s => match s with
                     | Some "5"%string => 5%Q
                     | _ => 7%Q
                     end)
           ["in.pdf"; "out.pdf"]%string
           ["--double"; "--padding"; "9"]%string "5"%string).
  intros [H | [H | []]]; discriminate H.
Defined.

(** X15: without [--padding] on the command line, and also when the only
    [--padding] is the last argument, the padding is 0 and nothing is
    parsed. *)
Theorem padding_defaults_to_zero {num : Type} {NUM : JsNumber num}
        (parseFloat : option string -> num) (arguments_ : list string) :
  ~ In "--padding"%string arguments_
  \/ (exists pre, arguments_ = pre ++ ["--padding"%string]
                  /\ ~ In "--padding"%string pre) ->
  MainScript.options parseFloat arguments_
  = Main.Options.mk num (includes arguments_ "--a3")
                    (includes arguments_ "--debug")
                    (includes arguments_ "--double")
                    nzero.
Proof.
  intros [Habsent | (pre & -> & Hpre)]; unfold MainScript.options.
  - rewrite (indexOf_absent _ _ Habsent). reflexivity.
  - rewrite (indexOf_first pre [] _ Hpre), length_app. cbn [length].
    destruct (Z.ltb_spec (Z.of_nat (length pre))
                         (Z.of_nat (length pre + 1) - 1)); [lia|].
    rewrite andb_false_r. reflexivity.
Qed.

Lemma padding_defaults_to_zero_witness :
  MainScript.options (fun _ => 7%Q) ["in.pdf"; "out.pdf"; "--a3"; "--padding"]%string
  = Main.Options.mk Q true false false 0%Q.
Proof.
  assert (Hlast : ~ In "--padding"%string ["in.pdf"; "out.pdf"; "--a3"]%string)
    by (intros [H | [H | [H | []]]]; discriminate H).
  exact (padding_defaults_to_zero
           (fun _ => 7%Q) ["in.pdf"; "out.pdf"; "--a3"; "--padding"]%string
           (or_intror (ex_intro _ ["in.pdf"; "out.pdf"; "--a3"]%string
                                (conj eq_refl Hlast)))).
Defined.

(** ** How the scripts end *)

Section Endings.
Context {num : Type} {NUM : JsNumber num}.
Variable join : string -> string -> string.
Variable parseFloat : option string -> num.
Variable isDirectory : string -> option bool.
Variable readdirSync : string -> list string.

(** A [try] whose handler only logs never throws. *)
Lemma try_catch_logged_returns (body : Script num unit) (message : string)
      (w : World num) :
  exists w',
    try_catch body (fun err => console_error message err) w = (Returned tt, w').
Proof.
  unfold try_catch. destruct (body w) as [[[]|e] w1]; eexists; reflexivity.
Qed.

Lemma Main_script_paths (a b : string) (rest : list string) (w : World num) :
  a <> ""%string -> b <> ""%string ->
  MainScript.script join parseFloat isDirectory readdirSync (a :: b :: rest) w
  = match isDirectory a with
    | None => (uncaught (ENOENT a), w)
    | Some true =>
        match isDirectory b with
        | None => (uncaught (ENOENT b), w)
        | Some false =>
            (exit 1 ["Error: In batch mode, output path must be a directory"%string],
             w)
        | Some true =>
            match Main.batchMode join a b
                                 (MainScript.options parseFloat (a :: b :: rest))
                                 (readdirSync a) w with
            | (Returned _, w') => (completed, w')
            | (Thrown e, w') => (uncaught e, w')
            end
        end
    | Some false =>
        match Main.singleMode a b
                              (MainScript.options parseFloat (a :: b :: rest))
                              w with
        | (Returned _, w') => (completed, w')
        | (Thrown e, w') => (uncaught e, w')
        end
    end.
Proof.
  intros Ha Hb. unfold MainScript.script, at_index. cbn.
  destruct a as [|ca a]; [contradiction|].
  destruct b as [|cb b]; [contradiction|].
  reflexivity.
Qed.

Lemma Minimal_script_paths (a b : string) (rest : list string) (w : World num) :
  a <> ""%string -> b <> ""%string ->
  MinimalScript.script join isDirectory readdirSync (a :: b :: rest) w
  = match isDirectory a with
    | None => (uncaught (ENOENT a), w)
    | Some true =>
        match isDirectory b with
        | None => (uncaught (ENOENT b), w)
        | Some false =>
            (exit 1 ["Error: In batch mode, output path must be a directory"%string],
             w)
        | Some true =>
            match Minimal.batchMode join a b
                                    (MinimalScript.options (a :: b :: rest))
                                    (readdirSync a) w with
            | (Returned _, w') => (completed, w')
            | (Thrown e, w') => (uncaught e, w')
            end
        end
    | Some false =>
        match MinimalScript.singleMode a b
                                       (MinimalScript.options (a :: b :: rest))
                                       w with
        | (Returned _, w') => (completed, w')
        | (Thrown e, w') => (uncaught e, w')
        end
    end.
Proof.
  intros Ha Hb. unfold MinimalScript.script, at_index. cbn.
  destruct a as [|ca a]; [contradiction|].
  destruct b as [|cb b]; [contradiction|].
  reflexivity.
Qed.
End Endings.

(** X16: once both paths are given and exist (a file as input, or two
    directories), either script runs to its end, so that the process
    exits with status 0, whatever happens to the conversions: their
    failures are caught and logged, never passed on. *)
Theorem conversion_failures_exit_zero {num : Type} {NUM : JsNumber num}
        (join : string -> string -> string)
        (parseFloat : option string -> num)
        (isDirectory : string -> option bool)
        (readdirSync : string -> list string)
        (a b : string) (rest : list string) (w : World num) :
  a <> ""%string ->
  b <> ""%string ->
  isDirectory a = Some false
  \/ (isDirectory a = Some true /\ isDirectory b = Some true) ->
  fst (MainScript.script join parseFloat isDirectory readdirSync
                         (a :: b :: rest) w) = completed
  /\ fst (MinimalScript.script join isDirectory readdirSync
                               (a :: b :: rest) w) = completed
  /\ exitCode completed = 0.
Proof.
  intros Ha Hb Hpaths.
  rewrite Main_script_paths, Minimal_script_paths by assumption.
  split; [|split; [|reflexivity]].
  - destruct Hpaths as [-> | [-> ->]].
    + destruct (try_catch_logged_returns
                  (Main.pdfToBooklet a b
                     (MainScript.options parseFloat (a :: b :: rest));;
                   console_info ("Saddle-stitch booklet created successfully: "
                                   ++ b))
                  "Error creating booklet:" w) as [w' Hw'].
      unfold Main.singleMode. rewrite Hw'. reflexivity.
    + destruct (try_catch_logged_returns
                  (Main.processBatch join a b
                     (MainScript.options parseFloat (a :: b :: rest))
                     (readdirSync a);;
                   console_info "Batch processing completed successfully")
                  "Error in batch processing:" w) as [w' Hw'].
      unfold Main.batchMode. rewrite Hw'. reflexivity.
  - destruct Hpaths as [-> | [-> ->]].
    + destruct (try_catch_logged_returns
                  (Minimal.pdfToBooklet a b
                     (MinimalScript.options (a :: b :: rest));;
                   console_info ("Saddle-stitch booklet created successfully: "
                                   ++ b))
                  "Error creating booklet:" w) as [w' Hw'].
      unfold MinimalScript.singleMode. rewrite Hw'. reflexivity.
    + destruct (try_catch_logged_returns
                  (Minimal.processBatch join a b
                     (MinimalScript.options (a :: b :: rest))
                     (readdirSync a);;
                   console_info "Batch processing completed successfully")
                  "Error in batch processing:" w) as [w' Hw'].
      unfold Minimal.batchMode. rewrite Hw'. reflexivity.
Qed.

Lemma conversion_failures_exit_zero_witness :
  fst (MainScript.script slash_join (fun _ => 0%Q) (fun _ => Some false)
                         (fun _ => []) ["in/b.pdf"; "out.pdf"]%string
                         sample_world)
  = completed
  /\ fs sample_world !! "in/b.pdf" = Some OtherFile.
Proof.
  destruct (conversion_failures_exit_zero
              slash_join (fun _ => 0%Q) (fun _ => Some false) (fun _ => [])
              "in/b.pdf"%string "out.pdf"%string [] sample_world
              ltac:(discriminate) ltac:(discriminate) (or_introl eq_refl))
    as [HM _].
  split; [exact HM | reflexivity].
Defined.

(** X17: in single-file mode, when the input path holds nothing that can
    be read, something that is not a PDF, or a PDF without pages, either
    script writes nothing and reverses no preset; it logs one error line
    with the error that was thrown (by the read, by the load, or the
    TypeError of reading the size of the missing first page), with or
    without [--debug], and then ends normally. *)
Theorem failed_single_conversion_is_only_logged
        {num : Type} {NUM : JsNumber num}
        (join : string -> string -> string)
        (parseFloat : option string -> num)
        (isDirectory : string -> option bool)
        (readdirSync : string -> list string)
        (a b : string) (rest : list string) (w : World num) :
  a <> ""%string ->
  b <> ""%string ->
  isDirectory a = Some false ->
  (forall doc, fs w !! a = Some (PdfFile doc) -> doc = []) ->
  let thrown := match fs w !! a with
                | None => ENOENT a
                | Some OtherFile => InvalidPDF a
                | Some (PdfFile _) => TypeError "getSize"
                end in
  let logged :=
    (completed,
     mkWorld (PageSizes w) (fs w)
             (console w ++ [error "Error creating booklet:" thrown])) in
  MainScript.script join parseFloat isDirectory readdirSync (a :: b :: rest) w
  = logged
  /\ MinimalScript.script join isDirectory readdirSync (a :: b :: rest) w
     = logged.
Proof.
  intros Ha Hb Hfile Hbad. cbv zeta.
  rewrite Main_script_paths, Minimal_script_paths, Hfile by assumption.
  split.
  - destruct (Main_pdfToBooklet_throws
                a b (MainScript.options parseFloat (a :: b :: rest)) w Hbad)
      as [e He].
    destruct (Main_pdfToBooklet_Thrown_inv _ _ _ _ _ _ He) as (_ & -> & _).
    unfold Main.singleMode, try_catch, mbind, Script_bind. rewrite He.
    reflexivity.
  - destruct (Minimal_pdfToBooklet_throws
                a b (MinimalScript.options (a :: b :: rest)) w Hbad)
      as [e He].
    destruct (Minimal_pdfToBooklet_Thrown_inv _ _ _ _ _ _ He) as (_ & -> & _).
    unfold MinimalScript.singleMode, try_catch, mbind, Script_bind. rewrite He.
    reflexivity.
Qed.

Lemma failed_single_conversion_is_only_logged_witness :
  MainScript.script slash_join (fun _ => 0%Q) (fun _ => Some false)
                    (fun _ => []) ["in/b.pdf"; "out.pdf"; "--debug"]%string
                    sample_world
  = (completed,
     mkWorld (PageSizes sample_world) (fs sample_world)
             [error "Error creating booklet:" (InvalidPDF "in/b.pdf")]).
Proof.
  assert (Hbad : forall doc,
             fs sample_world !! "in/b.pdf" = Some (PdfFile doc) -> doc = [])
    by (intros doc Hdoc; vm_compute in Hdoc; discriminate Hdoc).
  assert (Ha : "in/b.pdf"%string <> ""%string) by discriminate.
  assert (Hb : "out.pdf"%string <> ""%string) by discriminate.
  pose proof (failed_single_conversion_is_only_logged
                slash_join (fun _ => 0%Q) (fun _ => Some false) (fun _ => [])
                "in/b.pdf"%string "out.pdf"%string ["--debug"%string]
                sample_world Ha Hb eq_refl Hbad) as Hlogged.
  cbv zeta in Hlogged. destruct Hlogged as [HM _].
  exact HM.
Defined.

(** X18: either script prints its usage and exits with status 1 exactly
    when the command line does not start with two arguments that are not
    empty; it has then touched neither the files nor the presets.  A
    switch in one of the first two places counts as a path. *)
Theorem usage_is_printed_without_two_paths {num : Type} {NUM : JsNumber num}
        (join : string -> string -> string)
        (parseFloat : option string -> num)
        (isDirectory : string -> option bool)
        (readdirSync : string -> list string)
        (arguments_ : list string) (w : World num) :
  let two_paths :=
    match arguments_ with
    | a :: b :: _ => a <> ""%string /\ b <> ""%string
    | _ => False
    end in
  (MainScript.script join parseFloat isDirectory readdirSync arguments_ w
   = (exit 1 [],
      mkWorld (PageSizes w) (fs w) (console w ++ MainScript.usage))
   <-> ~ two_paths)
  /\ (MinimalScript.script join isDirectory readdirSync arguments_ w
      = (exit 1 [],
         mkWorld (PageSizes w) (fs w) (console w ++ MinimalScript.usage))
      <-> ~ two_paths).
Proof.
  cbv zeta. split; split.
  - intros Hrun Htwo.
    destruct arguments_ as [|a [|b rest]]; try contradiction.
    destruct Htwo as [Ha Hb].
    rewrite Main_script_paths in Hrun by assumption.
    destruct (isDirectory a) as [[]|]; [|try discriminate Hrun ..].
    + destruct (isDirectory b) as [[]|]; [|discriminate Hrun ..].
      destruct (Main.batchMode _ _ _ _ _ _) as [[u|e] w'];
        discriminate Hrun.
    + destruct (Main.singleMode _ _ _ _) as [[u|e] w']; discriminate Hrun.
  - intro Hnot.
    destruct arguments_ as [|a [|b rest]];
      [reflexivity | destruct a; reflexivity |].
    destruct a as [|ca a]; [reflexivity|].
    destruct b as [|cb b]; [reflexivity|].
    exfalso. apply Hnot. split; discriminate.
  - intros Hrun Htwo.
    destruct arguments_ as [|a [|b rest]]; try contradiction.
    destruct Htwo as [Ha Hb].
    rewrite Minimal_script_paths in Hrun by assumption.
    destruct (isDirectory a) as [[]|]; [|try discriminate Hrun ..].
    + destruct (isDirectory b) as [[]|]; [|discriminate Hrun ..].
      destruct (Minimal.batchMode _ _ _ _ _ _) as [[u|e] w'];
        discriminate Hrun.
    + destruct (MinimalScript.singleMode _ _ _ _) as [[u|e] w'];
        discriminate Hrun.
  - intro Hnot.
    destruct arguments_ as [|a [|b rest]];
      [reflexivity | destruct a; reflexivity |].
    destruct a as [|ca a]; [reflexivity|].
    destruct b as [|cb b]; [reflexivity|].
    exfalso. apply Hnot. split; discriminate.
Qed.

(** X19: with two paths on the command line, either script ends with
    status 1, and has changed nothing, when nothing is at the input path
    (uncaught exception), and when the input is a directory but the output
    is not: nothing there (uncaught exception), or something that is not a
    directory (one error line, then exit). *)
Theorem unfit_paths_end_with_status_one {num : Type} {NUM : JsNumber num}
        (join : string -> string -> string)
        (parseFloat : option string -> num)
        (isDirectory : string -> option bool)
        (readdirSync : string -> list string)
        (a b : string) (rest : list string) (w : World num) :
  a <> ""%string ->
  b <> ""%string ->
  isDirectory a = None
  \/ (isDirectory a = Some true /\ isDirectory b <> Some true) ->
  let ending :=
    match isDirectory a, isDirectory b with
    | None, _ => uncaught (ENOENT a)
    | _, None => uncaught (ENOENT b)
    | _, _ =>
        exit 1 ["Error: In batch mode, output path must be a directory"%string]
    end in
  MainScript.script join parseFloat isDirectory readdirSync (a :: b :: rest) w
  = (ending, w)
  /\ MinimalScript.script join isDirectory readdirSync (a :: b :: rest) w
     = (ending, w)
  /\ exitCode ending = 1.
Proof.
  intros Ha Hb Hpaths. cbv zeta.
  rewrite Main_script_paths, Minimal_script_paths by assumption.
  destruct Hpaths as [-> | [-> Hout]].
  - repeat split.
  - destruct (isDirectory b) as [[]|]; [congruence | |]; repeat split.
Qed.

Lemma unfit_paths_end_with_status_one_witness :
  MainScript.script slash_join (fun _ => 0%Q)
                    (fun path => if String.eqb path "in" then Some true
                                 else Some false)
                    (fun _ => ["a.pdf"]%string)
                    ["in"; "out.pdf"]%string sample_world
  = (exit 1 ["Error: In batch mode, output path must be a directory"%string],
     sample_world).
Proof.
  assert (Hout : (fun path => if String.eqb path "in" then Some true
                              else Some false) "out.pdf"%string
                 <> Some true) by discriminate.
  pose proof (unfit_paths_end_with_status_one
                slash_join (fun _ => 0%Q)
                (fun path => if String.eqb path "in" then Some true
                             else Some false)
                (fun _ => ["a.pdf"]%string)
                "in"%string "out.pdf"%string [] sample_world
                ltac:(discriminate) ltac:(discriminate)
                (or_intror (conj eq_refl Hout))) as Hends.
  cbv zeta in Hends. destruct Hends as [HM _].
  exact HM.
Defined.

(** ** The two scripts side by side *)

(** X20: the full script fills the sides as the minimal script does: side
    by side, the source pages it places are those the minimal script
    places, in the same order, each once, or each twice in a row under
    double print. *)
Theorem main_fills_sides_as_minimal {num : Type} {NUM : JsNumber num}
        (options : Main.Options num) (pageCount : Z)
        (origWidth origHeight outputWidth outputHeight : num) :
  map (fun pg => map page (drawn pg))
      (Main.impose options pageCount origWidth origHeight
                   outputWidth outputHeight)
  = map (fun pg => flat_map (copies (Main.Options.double options))
                            (map page (drawn pg)))
        (Minimal.impose pageCount origWidth origHeight
                        outputWidth outputHeight).
Proof.
  rewrite Main_impose_sides, Minimal_impose_sides.
  induction (spec_indices (finalPageCount pageCount)) as [|index l IH].
  - reflexivity.
  - cbn [flat_map app map].
    rewrite IH, !Main_side_pages, !Minimal_side_pages. reflexivity.
Qed.


